(** * bucketHydrology: a cascade of linear reservoirs

    A shallow embedding of [bucketHydrology.py] (classes [reservoir] and
    [buckets]) and the properties of its update algorithm.

    Numbers.  The program computes with Python floats; they are idealised
    here as real numbers ([R]), with the decimal literals of the source read
    as exact reals and [np.exp] as the real exponential.  [np.inf], the
    default of [Hmax], is a separate constructor of [capacity].  In this
    model nothing is rounded and every quantity is a float, so that
    [-dt/self.t_efold] is the true quotient.  Two companion models cover
    what that leaves out: [discharge_int] is the discharge with Python 2
    integers for [dt] and [t_efold], whose quotient is rounded down, and
    the module [Binary64] is the reservoir with the operations of binary64
    floats.  The cascade owns its reservoirs: no object occurs twice in
    [self.reservoirs].

    Errors.  A Python exception is a value of [exn]; a method that mutates
    [self] before it raises is a computation in the monad [M], which returns
    the state reached together with the outcome. *)

From Stdlib Require Import Reals Lra Lia String.
From Stdlib Require Floats.PrimFloat.
From stdpp Require Import base list.

Open Scope R_scope.

(** ** Python exceptions and fallible results *)

Inductive exn : Type :=
  | IndexError
  | TypeError
  | AttributeError
  | ZeroDivisionError
  | ValueError
  | SystemExit (msg : string).

Inductive result (A : Type) : Type :=
  | Ok (a : A)
  | Raise (e : exn).
Arguments Ok {A} a.
Arguments Raise {A} e.

(** Reading an attribute that no assignment has created yet. *)
Definition getattr {A : Type} (o : option A) : result A :=
  match o with
  | Some v => Ok v
  | None => Raise AttributeError
  end.

(** [x / y] on Python floats: a zero divisor raises. *)
Definition py_div (x y : R) : result R :=
  if Req_dec_T y 0 then Raise ZeroDivisionError else Ok (x / y).

(** ** class reservoir *)

(** [Hmax] is a float that may be [np.inf]. *)
Inductive capacity : Type :=
  | Finite (c : R)
  | Unbounded.

(** [x <= Hmax] and [x > Hmax] for a real [x]. *)
Definition le_cap (x : R) (c : capacity) : bool :=
  match c with
  | Finite c => if Rle_dec x c then true else false
  | Unbounded => true
  end.

Definition gt_cap (x : R) (c : capacity) : bool :=
  match c with
  | Finite c => if Rgt_dec x c then true else false
  | Unbounded => false
  end.

(** The attributes of a [reservoir] object.  [H_exfiltrated] and
    [H_infiltrated] do not exist until [discharge] assigns them; [Hout]
    (set to nan by [__init__], never read) is left out. *)
Record reservoir : Type := mkReservoir {
  Hwater : R;
  Hmax : capacity;
  t_efold : R;
  excess : R;
  f_to_discharge : R;
  H_exfiltrated : option R;
  H_infiltrated : option R
}.

(** [reservoir.__init__(t_efold, f_to_discharge=1., Hmax=np.inf)] *)
Definition reservoir_init (t_efold f_to_discharge : R) (Hmax : capacity)
  : reservoir :=
  {| Hwater := 0;
     Hmax := Hmax;
     t_efold := t_efold;
     excess := 0;
     f_to_discharge := f_to_discharge;
     H_exfiltrated := None;
     H_infiltrated := None |}.

Definition set_Hwater (r : reservoir) (h : R) : reservoir :=
  {| Hwater := h;
     Hmax := Hmax r;
     t_efold := t_efold r;
     excess := excess r;
     f_to_discharge := f_to_discharge r;
     H_exfiltrated := H_exfiltrated r;
     H_infiltrated := H_infiltrated r |}.

Definition set_excess (r : reservoir) (e : R) : reservoir :=
  {| Hwater := Hwater r;
     Hmax := Hmax r;
     t_efold := t_efold r;
     excess := e;
     f_to_discharge := f_to_discharge r;
     H_exfiltrated := H_exfiltrated r;
     H_infiltrated := H_infiltrated r |}.

(** [reservoir.recharge(H)].  The three tests are kept as the source has
    them: an [if] and two [elif]s without a final [else]; the local
    [excess] is added to [self.excess] on every path.  In the third branch
    [Hmax] is finite, as [gt_cap] never holds of [Unbounded]. *)
Definition recharge (r : reservoir) (H : R) : reservoir :=
  if Rlt_dec (Hwater r) 0 then
    set_excess (set_Hwater r 0) (excess r + 0)
  else if le_cap (Hwater r + H) (Hmax r) then
    set_excess (set_Hwater r (Hwater r + H)) (excess r + 0)
  else if gt_cap (Hwater r + H) (Hmax r) then
    match Hmax r with
    | Finite c =>
        set_excess (set_Hwater r c) (excess r + (Hwater r + H - c))
    | Unbounded => set_excess r (excess r + 0)
    end
  else set_excess r (excess r + 0).

(** The state of the reservoir after the four assignments of [discharge],
    given the value [q] of [-dt/self.t_efold]. *)
Definition discharge_with (r : reservoir) (q : R) : reservoir :=
  let dH := Hwater r * (1 - exp q) in
  {| Hwater := Hwater r - dH;
     Hmax := Hmax r;
     t_efold := t_efold r;
     excess := 0;
     f_to_discharge := f_to_discharge r;
     H_exfiltrated := Some (excess r + dH * f_to_discharge r);
     H_infiltrated := Some (dH * (1 - f_to_discharge r)) |}.

(** [reservoir.discharge(dt)].  The division is the first thing evaluated,
    so a failing call leaves the object as it was. *)
Definition discharge (r : reservoir) (dt : R) : result reservoir :=
  match py_div (- dt) (t_efold r) with
  | Ok q => Ok (discharge_with r q)
  | Raise e => Raise e
  end.

(** ** class buckets *)

(** The value held by [self.ET]: a scalar as [evapotranspirationChang2019]
    computes it from scalar temperatures, or a series as
    [set_evapotranspiration] stores it. *)
Inductive pyval : Type :=
  | Scalar (x : R)
  | Array (xs : list R).

(** The attributes of a [buckets] object.  [Q] and [time] do not exist
    before the first [run]; [stdout] collects what [print] writes. *)
Record buckets : Type := mkBuckets {
  reservoirs : list reservoir;
  dt : R;
  rain : option (list R);
  ET : option pyval;
  Q : option (list R);
  time : option (list R);
  stdout : list string
}.

(** [buckets.__init__(reservoir_list, dt=1)] *)
Definition buckets_init (reservoir_list : list reservoir) (dt : R) : buckets :=
  {| reservoirs := reservoir_list; dt := dt; rain := None; ET := None;
     Q := None; time := None; stdout := [] |}.

Definition with_reservoirs (b : buckets) (rs : list reservoir) : buckets :=
  {| reservoirs := rs; dt := dt b; rain := rain b; ET := ET b;
     Q := Q b; time := time b; stdout := stdout b |}.

Definition with_rain (b : buckets) (x : option (list R)) : buckets :=
  {| reservoirs := reservoirs b; dt := dt b; rain := x; ET := ET b;
     Q := Q b; time := time b; stdout := stdout b |}.

Definition with_ET (b : buckets) (x : option pyval) : buckets :=
  {| reservoirs := reservoirs b; dt := dt b; rain := rain b; ET := x;
     Q := Q b; time := time b; stdout := stdout b |}.

Definition with_Q (b : buckets) (x : option (list R)) : buckets :=
  {| reservoirs := reservoirs b; dt := dt b; rain := rain b; ET := ET b;
     Q := x; time := time b; stdout := stdout b |}.

Definition with_time (b : buckets) (x : option (list R)) : buckets :=
  {| reservoirs := reservoirs b; dt := dt b; rain := rain b; ET := ET b;
     Q := Q b; time := x; stdout := stdout b |}.

Definition with_stdout (b : buckets) (x : list string) : buckets :=
  {| reservoirs := reservoirs b; dt := dt b; rain := rain b; ET := ET b;
     Q := Q b; time := time b; stdout := x |}.

(** *** Methods as state transformers that may raise *)

Definition M (A : Type) : Type := buckets -> result A * buckets.

Definition ret {A : Type} (a : A) : M A := fun b => (Ok a, b).

Definition bind {A B : Type} (m : M A) (k : A -> M B) : M B :=
  fun b =>
    match m b with
    | (Ok a, b') => k a b'
    | (Raise e, b') => (Raise e, b')
    end.

Definition raise {A : Type} (e : exn) : M A := fun b => (Raise e, b).

Definition get : M buckets := fun b => (Ok b, b).

Definition modify (f : buckets -> buckets) : M unit := fun b => (Ok tt, f b).

Definition lift {A : Type} (x : result A) : M A := fun b => (x, b).

Notation "x <- m ;; k" := (bind m (fun x => k))
  (at level 100, m at next level, right associativity).
Notation "m ;; k" := (bind m (fun _ => k))
  (at level 100, right associativity).

(** [print s] *)
Definition print (s : string) : M unit :=
  modify (fun b => with_stdout b (stdout b ++ [s])).

(** [self.reservoirs[i]], for [i >= 0]. *)
Definition get_reservoir (i : nat) : M reservoir :=
  b <- get ;;
  match reservoirs b !! i with
  | Some r => ret r
  | None => raise IndexError
  end.

(** A mutation of the object [self.reservoirs[i]]. *)
Definition set_reservoir (i : nat) (r : reservoir) : M unit :=
  modify (fun b => with_reservoirs b (<[i := r]> (reservoirs b))).

(** [self.reservoirs[i].recharge(H)] *)
Definition call_recharge (i : nat) (H : R) : M unit :=
  r <- get_reservoir i ;;
  set_reservoir i (recharge r H).

(** [self.reservoirs[i].discharge(self.dt)] *)
Definition call_discharge (i : nat) : M unit :=
  r <- get_reservoir i ;;
  b <- get ;;
  r' <- lift (discharge r (dt b)) ;;
  set_reservoir i r'.

(** [self.reservoirs[i].H_exfiltrated] and [self.reservoirs[i].H_infiltrated] *)
Definition read_exfiltrated (i : nat) : M R :=
  r <- get_reservoir i ;;
  lift (getattr (H_exfiltrated r)).

Definition read_infiltrated (i : nat) : M R :=
  r <- get_reservoir i ;;
  lift (getattr (H_infiltrated r)).

(** [buckets.set_rainfall_time_series(rain)] *)
Definition set_rainfall_time_series (rn : list R) : M unit :=
  modify (fun b => with_rain b (Some rn)).

(** [buckets.set_evapotranspiration(ET)] *)
Definition set_evapotranspiration (et : list R) : M unit :=
  modify (fun b => with_ET b (Some (Array et))).

(** The body of [for i in range(1, len(self.reservoirs))] in [update], run
    over the indices [idx], with the running value of [Qi].  Python looks
    up [self.reservoirs[i]] before it evaluates the argument of [recharge];
    for the indices of the loop both lookups succeed, so reading the
    argument first makes no difference. *)
Fixpoint update_loop (idx : list nat) (Qi : R) : M R :=
  match idx with
  | [] => ret Qi
  | i :: idx' =>
      Hin <- read_infiltrated (i - 1) ;;
      call_recharge i Hin ;;
      call_discharge i ;;
      Hex <- read_exfiltrated i ;;
      update_loop idx' (Qi + Hex)
  end.

(** [buckets.update(rain_at_timestep, ET_at_timestep=0.)] *)
Definition update (rain_at_timestep ET_at_timestep : R) : M R :=
  let recharge_at_timestep := rain_at_timestep - ET_at_timestep in
  call_recharge 0 recharge_at_timestep ;;
  call_discharge 0 ;;
  Qi <- read_exfiltrated 0 ;;
  b <- get ;;
  update_loop (seq 1 (length (reservoirs b) - 1)) Qi.

(** *** Evapotranspiration *)

Definition Chang_I : R := 41.47044637.

Definition Chang_a_i : R :=
  6.75E-7 * Chang_I ^ 3 - 7.72E-5 * Chang_I ^ 2 + 1.7912E-2 * Chang_I
  + 0.49239.

(** [x ** y] on floats, as the interpreter of the source (Python 2, which
    has the [print] statement) computes it: any base to the power zero is
    one; zero to a negative power and a negative base to a power that is
    not a whole number raise. *)
Definition py_pow (x y : R) : result R :=
  if Req_dec_T y 0 then Ok 1
  else if Req_dec_T x 0 then
    if Rlt_dec y 0 then Raise ZeroDivisionError else Ok 0
  else if Rlt_dec x 0 then
    if Req_dec_T y (IZR (Int_part y)) then Ok (powerRZ x (Int_part y))
    else Raise ValueError
  else Ok (Rpower x y).

(** A comparison used as a factor: [True] is 1 and [False] is 0. *)
Definition as_number {P Q : Prop} (c : {P} + {Q}) : R :=
  if c then 1 else 0.

(** The value that [evapotranspirationChang2019] assigns to [self.ET]. *)
Definition Chang2019 (Tmax Tmin photoperiod : R) : result R :=
  let Teff := 0.5 * 0.69 * (3 * Tmax - Tmin) in
  let C := photoperiod / 360 in
  match py_pow (10 * Teff / Chang_I) Chang_a_i with
  | Ok p =>
      Ok (C * (-415.85 + 32.24 * Teff - 0.43 * Teff ^ 2)
            * as_number (Rge_dec Teff 26)
          + 16 * C * p
            * as_number (Rgt_dec Teff 0) * as_number (Rlt_dec Teff 26))
  | Raise e => Raise e
  end.

(** [buckets.evapotranspirationChang2019(Tmax, Tmin, photoperiod)] *)
Definition evapotranspirationChang2019 (Tmax Tmin photoperiod : R) : M unit :=
  v <- lift (Chang2019 Tmax Tmin photoperiod) ;;
  modify (fun b => with_ET b (Some (Scalar v))).

(** *** run *)

(** [xs[i]] where [xs] is the argument [rain] of [run], [None] by default. *)
Definition subscript (xs : option (list R)) (i : nat) : result R :=
  match xs with
  | None => Raise TypeError
  | Some l =>
      match l !! i with
      | Some x => Ok x
      | None => Raise IndexError
      end
  end.

(** [self.ET[i]] *)
Definition subscript_ET (et : option pyval) (i : nat) : result R :=
  match et with
  | None => Raise TypeError
  | Some (Scalar _) => Raise TypeError
  | Some (Array l) =>
      match l !! i with
      | Some x => Ok x
      | None => Raise IndexError
      end
  end.

(** [self.Q.append(Qi)] *)
Definition append_Q (Qi : R) : M unit :=
  b <- get ;;
  q <- lift (getattr (Q b)) ;;
  modify (fun b => with_Q b (Some (q ++ [Qi]))).

(** The two loops of [run] over [ti in range(len(self.rain))]; both read
    the argument [rain], not [self.rain]. *)
Fixpoint run_loop_ET (rain_arg : option (list R)) (tis : list nat) : M unit :=
  match tis with
  | [] => ret tt
  | ti :: tis' =>
      x <- lift (subscript rain_arg ti) ;;
      b <- get ;;
      e <- lift (subscript_ET (ET b) ti) ;;
      Qi <- update x e ;;
      append_Q Qi ;;
      run_loop_ET rain_arg tis'
  end.

Fixpoint run_loop (rain_arg : option (list R)) (tis : list nat) : M unit :=
  match tis with
  | [] => ret tt
  | ti :: tis' =>
      x <- lift (subscript rain_arg ti) ;;
      Qi <- update x 0 ;;
      append_Q Qi ;;
      run_loop rain_arg tis'
  end.

(** [np.arange(n) * dt] *)
Definition time_axis (n : nat) (dt : R) : list R :=
  map (fun i => INR i * dt) (seq 0 n).

(** [buckets.run(rain=None, ET=False)].  The final [np.array(self.Q)]
    keeps the values and their order. *)
Definition run (rain_arg : option (list R)) (useET : bool) : M unit :=
  modify (fun b => with_Q b (Some [])) ;;
  match rain_arg with
  | Some rn =>
      b <- get ;;
      match rain b with
      | Some _ => print "Warning: overwriting existing rainfall time series."
      | None => ret tt
      end ;;
      set_rainfall_time_series rn
  | None => ret tt
  end ;;
  b <- get ;;
  match rain b with
  | None => raise (SystemExit "Please set the rainfall time series")
  | Some self_rain =>
      modify (fun b => with_time b (Some (time_axis (length self_rain) (dt b)))) ;;
      if useET then
        run_loop_ET rain_arg (seq 0 (length self_rain))
      else
        print "Warning: neglecting evapotranspiration." ;;
        run_loop rain_arg (seq 0 (length self_rain))
  end.

(** [buckets.export_Hlist()] *)
Definition export_Hlist : M (list R) :=
  b <- get ;;
  ret (map Hwater (reservoirs b)).

(** The loop of [initialize]: [reservoir.Hwater = Hlist[i]] for the
    reservoirs at the indices [idx]. *)
Fixpoint initialize_loop (Hlist : list R) (idx : list nat) : M unit :=
  match idx with
  | [] => ret tt
  | i :: idx' =>
      r <- get_reservoir i ;;
      h <- lift (subscript (Some Hlist) i) ;;
      set_reservoir i (set_Hwater r h) ;;
      initialize_loop Hlist idx'
  end.

(** [buckets.initialize(Hlist=None)] *)
Definition initialize (Hlist : option (list R)) : M unit :=
  match Hlist with
  | Some l =>
      b <- get ;;
      initialize_loop l (seq 0 (length (reservoirs b)))
  | None => ret tt
  end.

(** ** The update step as the specification words it

    One reservoir's step is a recharge followed by a discharge; the cascade
    feeds each reservoir, top to bottom, the water infiltrated from the one
    above it; the discharge of the step is the sum of what the reservoirs
    exfiltrated. *)

Definition exfiltratedThisStep (r : reservoir) : R :=
  match H_exfiltrated r with Some v => v | None => 0 end.

Definition infiltratedThisStep (r : reservoir) : R :=
  match H_infiltrated r with Some v => v | None => 0 end.

Definition reservoir_step (dt : R) (r : reservoir) (input : R) : reservoir :=
  discharge_with (recharge r input) (- dt / t_efold r).

Fixpoint cascade_sequence (dt input : R) (rs : list reservoir)
  : list reservoir :=
  match rs with
  | [] => []
  | r :: rest =>
      let r' := reservoir_step dt r input in
      r' :: cascade_sequence dt (infiltratedThisStep r') rest
  end.

Definition total_exfiltrated (rs : list reservoir) : R :=
  fold_right Rplus 0 (map exfiltratedThisStep rs).

(** A run that neglects evapotranspiration, as the specification words it:
    one update per rainfall value, in order, each with a net recharge of
    [rain - 0]; the result is the reservoirs at the end and the discharge
    of every step. *)
Fixpoint simulate (dt : R) (rs : list reservoir) (rainfall : list R)
  : list reservoir * list R :=
  match rainfall with
  | [] => (rs, [])
  | x :: xs =>
      let rs' := cascade_sequence dt (x - 0) rs in
      let (rsf, qs) := simulate dt rs' xs in
      (rsf, total_exfiltrated rs' :: qs)
  end.

(** The effective temperature of the evapotranspiration formula. *)
Definition Teff_of (Tmax Tmin : R) : R := 0.5 * 0.69 * (3 * Tmax - Tmin).

(** ** States of one reservoir that the methods can reach *)

Inductive reachable (r0 : reservoir) : reservoir -> Prop :=
  | reach_init : reachable r0 r0
  | reach_recharge r H :
      reachable r0 r -> reachable r0 (recharge r H)
  | reach_discharge r dt r' :
      reachable r0 r -> discharge r dt = Ok r' -> reachable r0 r'
  | reach_initialize r h :
      reachable r0 r -> reachable r0 (set_Hwater r h).

(** ** Sample objects, for the concrete instances below *)

(** A soil layer of capacity 10 that holds 8. *)
Definition sample_reservoir : reservoir :=
  {| Hwater := 8; Hmax := Finite 10; t_efold := 5; excess := 0;
     f_to_discharge := 0.25; H_exfiltrated := None; H_infiltrated := None |}.

(** An unbounded reservoir that holds 2. *)
Definition shallow_reservoir : reservoir :=
  set_Hwater (reservoir_init 5 1 Unbounded) 2.

(** A reservoir whose level a net evapotranspiration left below zero. *)
Definition depleted_reservoir : reservoir :=
  set_Hwater (reservoir_init 5 1 Unbounded) (-3).

(** A two-layer cascade with a daily step. *)
Definition sample_buckets : buckets :=
  buckets_init [reservoir_init 5 0.5 (Finite 10); reservoir_init 30 1 Unbounded] 1.

(** The same cascade after [set_rainfall_time_series([10, 0, 0, 0])]. *)
Definition configured_buckets : buckets :=
  with_rain sample_buckets (Some [10; 0; 0; 0]).

(** A cascade without rainfall that keeps the discharge of an earlier run. *)
Definition stale_buckets : buckets :=
  with_Q sample_buckets (Some [1.5; 0.5]).

(** ** Python 2 integers

    [buckets] takes the int [dt=1] by default, and a reservoir can be built
    with an int e-folding time.  Between two ints the [/] of Python 2 (the
    source has no [from __future__ import division]) is the quotient
    rounded down. *)

(** [x / y] on Python 2 ints. *)
Definition py_div_int (x y : Z) : result Z :=
  if Z.eq_dec y 0%Z then Raise ZeroDivisionError else Ok (x / y)%Z.

(** [reservoir.discharge(dt)] for an int [dt], on a reservoir whose
    [t_efold] is the int [te]; [np.exp] takes the int quotient to a float,
    and the assignments are those of [discharge]. *)
Definition discharge_int (r : reservoir) (dt te : Z) : result reservoir :=
  match py_div_int (- dt)%Z te with
  | Ok q => Ok (discharge_with r (IZR q))
  | Raise e => Raise e
  end.

(** [reservoir(5)], holding 10. *)
Definition int_reservoir : reservoir :=
  set_Hwater (reservoir_init (IZR 5) 1 Unbounded) 10.

(** ** The reservoir in binary64

    The class [reservoir] once more, with the floats of the program and
    their rounded operations in place of real numbers, for the statements
    that depend on rounding. *)

Module Binary64.
Import PrimFloat.
Local Open Scope float_scope.

Record reservoir : Type := mkReservoir {
  Hwater : float;
  Hmax : float;
  t_efold : float;
  excess : float;
  f_to_discharge : float;
  H_exfiltrated : option float;
  H_infiltrated : option float
}.

(** [reservoir.__init__(t_efold, f_to_discharge=1., Hmax=np.inf)] *)
Definition reservoir_init (t_efold f_to_discharge Hmax : float) : reservoir :=
  {| Hwater := 0; Hmax := Hmax; t_efold := t_efold; excess := 0;
     f_to_discharge := f_to_discharge;
     H_exfiltrated := None; H_infiltrated := None |}.

(** The assignments to [self.Hwater] and [self.excess]. *)
Definition assign (r : reservoir) (level pending : float) : reservoir :=
  {| Hwater := level; Hmax := Hmax r; t_efold := t_efold r;
     excess := pending; f_to_discharge := f_to_discharge r;
     H_exfiltrated := H_exfiltrated r; H_infiltrated := H_infiltrated r |}.

(** [reservoir.recharge(H)] *)
Definition recharge (r : reservoir) (H : float) : reservoir :=
  if Hwater r <? 0 then assign r 0 (excess r + 0)
  else if Hwater r + H <=? Hmax r then assign r (Hwater r + H) (excess r + 0)
  else if Hmax r <? Hwater r + H then
    assign r (Hmax r) (excess r + (Hwater r + H - Hmax r))
  else assign r (Hwater r) (excess r + 0).

(** [np.exp] at the two arguments met below.  [np.exp(-0.2)] is the double
    nearest to the real exponential, 0.81873075307798182, and
    [np.exp(-1000.)], far below the smallest positive double, is 0.0; [nan]
    marks the arguments that are not tabulated. *)
Definition np_exp (q : float) : float :=
  if q =? -0x1.999999999999ap-3 then 0x1.a330ad6166159p-1
  else if q =? -1000 then 0
  else nan.

(** [reservoir.discharge(dt)] *)
Definition discharge (r : reservoir) (dt : float) : result reservoir :=
  if t_efold r =? 0 then Raise ZeroDivisionError
  else
    let dH := Hwater r * (1 - np_exp (- dt / t_efold r)) in
    Ok {| Hwater := Hwater r - dH; Hmax := Hmax r; t_efold := t_efold r;
          excess := 0; f_to_discharge := f_to_discharge r;
          H_exfiltrated := Some (excess r + dH * f_to_discharge r);
          H_infiltrated := Some (dH * (1 - f_to_discharge r)) |}.

(** The test of the mass balance as Python evaluates it:
    [exfiltrated + infiltrated == Hwater_before + amount - Hwater_after]. *)
Definition balanced (before : reservoir) (amount : float) (after : reservoir)
  : option bool :=
  match H_exfiltrated after, H_infiltrated after with
  | Some ex, Some inf =>
      Some (ex + inf =? Hwater before + amount - Hwater after)
  | _, _ => None
  end.

(** An unbounded reservoir with [t_efold = 5.] and [f_to_discharge = 1.]
    that holds 2. *)
Definition shallow_reservoir : reservoir :=
  assign (reservoir_init 5 1 infinity) 2 0.

(** An empty unbounded reservoir with [t_efold = 0.001] and
    [f_to_discharge = 0.3]. *)
Definition quick_reservoir : reservoir :=
  reservoir_init 0x1.0624dd2f1a9fcp-10 0x1.3333333333333p-2 infinity.

(** The float [5.7]. *)
Definition amount_5_7 : float := 0x1.6cccccccccccdp+2.

End Binary64.

(** ** Further objects and measures, for the laws of the second part *)

(** A cascade without reservoirs. *)
Definition empty_buckets : buckets := buckets_init [] 1.

(** A cascade whose top reservoir exfiltrates all it loses. *)
Definition sealed_buckets : buckets :=
  buckets_init
    [set_Hwater (reservoir_init 5 1 (Finite 10)) 4;
     set_Hwater (reservoir_init 30 0.5 Unbounded) 6] 1.

(** A run with an evapotranspiration series: one update per step that has
    both a rainfall and an evapotranspiration value, with the net recharge
    [rain - ET]. *)
Fixpoint simulate_ET (dt : R) (rs : list reservoir) (rainfall et : list R)
  : list reservoir * list R :=
  match rainfall, et with
  | x :: xs, e :: es =>
      let rs' := cascade_sequence dt (x - e) rs in
      let (rsf, qs) := simulate_ET dt rs' xs es in
      (rsf, total_exfiltrated rs' :: qs)
  | _, _ => (rs, [])
  end.

(** What [run] prints when it replaces a rainfall series. *)
Definition overwrite_warning (old : option (list R)) : list string :=
  match old with
  | Some _ => ["Warning: overwriting existing rainfall time series."%string]
  | None => []
  end.

(** The sample cascade with a three-day evapotranspiration series. *)
Definition ET_buckets : buckets :=
  with_ET sample_buckets (Some (Array [1; 0.5; 0.25])).

(** The sample cascade with an empty rainfall series configured. *)
Definition idle_buckets : buckets := with_rain sample_buckets (Some []).

(** Two reservoir objects that differ at most in the outputs of their last
    discharge. *)
Definition same_state (r r' : reservoir) : Prop :=
  Hwater r = Hwater r' /\ Hmax r = Hmax r' /\ t_efold r = t_efold r' /\
  excess r = excess r' /\ f_to_discharge r = f_to_discharge r'.

(** A new reservoir with the parameters of [r]. *)
Definition rebuilt (r : reservoir) : reservoir :=
  reservoir_init (t_efold r) (f_to_discharge r) (Hmax r).

(** ** computeNashSutcliffeEfficiency

    The observed discharge is an array of floats of which some may be nan
    or infinite: [None] stands for such a value.  The simulated discharge
    [self.Q] is the array that a completed [run] leaves; it is an argument
    here, and its values are real numbers as everywhere in this file. *)

(** A real number rounds to a finite double exactly when its magnitude is
    below this bound, half way between the largest double and [2^1024]. *)
Definition overflow_bound : R := 2 ^ 1024 - 2 ^ 970.

(** [np.isfinite(q * d)] for a simulated value [q] and an observed value
    [d]: the observation is finite and the product does not overflow. *)
Definition product_finite (q : R) (d : option R) : bool :=
  match d with
  | Some d => if Rlt_dec (Rabs (q * d)) overflow_bound then true else false
  | None => false
  end.

(** [np.isfinite(self.Q * Qdata)], for arrays of one length. *)
Definition realvalue (Qsim : list R) (Qdata : list (option R)) : list bool :=
  zip_with product_finite Qsim Qdata.

(** [a[m]], for an array [a] and an array of booleans [m] of its length. *)
Fixpoint select {A : Type} (a : list A) (m : list bool) : list A :=
  match a, m with
  | x :: a', true :: m' => x :: select a' m'
  | _ :: a', false :: m' => select a' m'
  | _, _ => []
  end.

(** The numbers in an array of finite values. *)
Fixpoint values (a : list (option R)) : list R :=
  match a with
  | Some d :: a' => d :: values a'
  | None :: a' => values a'
  | [] => []
  end.

Definition np_sum (xs : list R) : R := fold_right Rplus 0 xs.

(** [np.mean]; of an empty array it is nan, which the caller below meets
    only where it is not used. *)
Definition np_mean (xs : list R) : R := np_sum xs / INR (length xs).

(** [np.sum(1 - m)]: the number of [False] in [m]. *)
Fixpoint count_false (m : list bool) : nat :=
  match m with
  | [] => 0
  | true :: m' => count_false m'
  | false :: m' => S (count_false m')
  end.

(** [buckets.computeNashSutcliffeEfficiency(Qdata)] with [self.Q = Qsim]:
    the value assigned to [self.NSE] ([None] when it is not finite, the
    denominator being 0) and the number of no-data points, which the method
    prints when it is not 0.  Arrays of different lengths: an empty array
    and a one-element array multiply to an empty array, the empty mask
    selects nothing and the value is nan; otherwise numpy stretches a
    one-element array, and the mask then does not fit the shorter array
    ([IndexError]); it refuses to multiply the others ([ValueError]). *)
Definition computeNashSutcliffeEfficiency
    (Qsim : list R) (Qdata : list (option R)) : result (option R * nat) :=
  if Nat.eq_dec (length Qsim) (length Qdata) then
    let _realvalue := realvalue Qsim Qdata in
    let Qs := select Qsim _realvalue in
    let Qd := values (select Qdata _realvalue) in
    let NSE_num := np_sum (zip_with (fun q d => (q - d) ^ 2) Qs Qd) in
    let NSE_denom := np_sum (map (fun d => (d - np_mean Qd) ^ 2) Qd) in
    Ok (if Req_dec_T NSE_denom 0 then None
        else Some (1 - NSE_num / NSE_denom),
        count_false _realvalue)
  else if Nat.eq_dec (length Qsim + length Qdata)%nat 1%nat then
    Ok (None, 0%nat)
  else if Nat.eq_dec (length Qsim) 1%nat then Raise IndexError
  else if Nat.eq_dec (length Qdata) 1%nat then Raise IndexError
  else Raise ValueError.

(** The positions the mask keeps, as pairs (simulated, observed). *)
Fixpoint data_pairs (Qsim : list R) (Qdata : list (option R))
  : list (R * R) :=
  match Qsim, Qdata with
  | q :: Qsim', Some d :: Qdata' =>
      if product_finite q (Some d) then (q, d) :: data_pairs Qsim' Qdata'
      else data_pairs Qsim' Qdata'
  | _ :: Qsim', None :: Qdata' => data_pairs Qsim' Qdata'
  | _, _ => []
  end.

(** Observed discharges with a gap, and a simulation of them. *)
Definition observed_sample : list (option R) := [Some 1; None; Some 3].
Definition simulated_sample : list R := [1; 7; 4].

(** A single unbounded reservoir that holds 10, draining by itself. *)
Definition draining_buckets : buckets :=
  buckets_init [set_Hwater (reservoir_init 5 1 Unbounded) 10] 1.

(** The recharge that reaches the reservoir under [rs] when [input] enters
    at the top of [rs]: what the last of them infiltrates. *)
Fixpoint cascade_outflow (dt input : R) (rs : list reservoir) : R :=
  match rs with
  | [] => input
  | r :: rest =>
      cascade_outflow dt (infiltratedThisStep (reservoir_step dt r input)) rest
  end.

(** A cascade whose second reservoir has a zero e-folding time. *)
Definition blocked_buckets : buckets :=
  buckets_init
    [reservoir_init 5 0.5 Unbounded; reservoir_init 0 1 Unbounded;
     reservoir_init 30 1 Unbounded] 1.

(** * Rounding *)

Module Binary64Laws.
Import PrimFloat.

(** C5, as the specification states it, fails in the arithmetic of the
    program.  The unbounded reservoir with [t_efold = 5.] and
    [f_to_discharge = 1.] that holds 2, recharged with 10 and discharged
    over [dt = 1.], exfiltrates 2.1752309630642181 and infiltrates 0, while
    [2 + 10 - Hwater_after] is 2.1752309630642177: the test [==] is
    false. *)
Lemma step_mass_balance_rounds :
  exists after,
    Binary64.discharge
      (Binary64.recharge Binary64.shallow_reservoir 10%float) 1%float
    = Ok after /\
    Binary64.H_exfiltrated after = Some 0x1.166df7dbcdbf5p+1%float /\
    Binary64.H_infiltrated after = Some 0%float /\
    Binary64.balanced Binary64.shallow_reservoir 10%float after = Some false.
Proof. eexists. repeat split; vm_compute; reflexivity. Qed.

(** The same where the exponential is beyond doubt: with [t_efold = 0.001]
    the quotient is -1000 and [np.exp] underflows to 0, the reservoir
    empties, and the two outputs of a recharge of 5.7 add up to
    5.6999999999999993. *)
Lemma step_mass_balance_rounds_drained :
  exists after,
    Binary64.discharge
      (Binary64.recharge Binary64.quick_reservoir Binary64.amount_5_7) 1%float
    = Ok after /\
    Binary64.Hwater after = 0%float /\
    Binary64.balanced Binary64.quick_reservoir Binary64.amount_5_7 after
    = Some false.
Proof. eexists. repeat split; vm_compute; reflexivity. Qed.

End Binary64Laws.


(** * Properties of [reservoir] *)

Section Reservoir.

Implicit Types (r : reservoir) (H dt : R).

Lemma recharge_fixed r H :
  Hmax (recharge r H) = Hmax r /\
  t_efold (recharge r H) = t_efold r /\
  f_to_discharge (recharge r H) = f_to_discharge r.
Proof.
  unfold recharge.
  destruct (Rlt_dec (Hwater r) 0); [easy|].
  destruct (le_cap _ _); [easy|].
  destruct (gt_cap _ _); [|easy].
  destruct (Hmax r) eqn:E; simpl; rewrite ?E; easy.
Qed.

Lemma py_div_nonzero x y : y <> 0 -> py_div x y = Ok (x / y).
Proof. intros Hy. unfold py_div. destruct (Req_dec_T y 0); easy. Qed.

Lemma discharge_nonzero r dt :
  t_efold r <> 0 -> discharge r dt = Ok (discharge_with r (- dt / t_efold r)).
Proof. intros Ht. unfold discharge. now rewrite py_div_nonzero. Qed.

Lemma discharge_zero r dt :
  t_efold r = 0 -> discharge r dt = Raise ZeroDivisionError.
Proof.
  intros Ht. unfold discharge, py_div. destruct (Req_dec_T _ _); easy.
Qed.

(** Float operands.  With a positive e-folding time and a positive [dt],
    of which at least one is a float, [discharge] returns; it depletes [dH = Hwater * (1 - exp(-dt/t_efold))], hands
    [excess + dH * f_to_discharge] to exfiltration and
    [dH * (1 - f_to_discharge)] to infiltration, lowers [Hwater] by [dH],
    resets [excess] to 0 and leaves the parameters alone.  The infiltrated
    amount does not depend on [excess]: started from any other pending
    excess [e], the same call infiltrates the same amount and exfiltrates
    [e + dH * f_to_discharge]. *)
Lemma discharge_split r dt :
  0 < dt -> 0 < t_efold r ->
  let dH := Hwater r * (1 - exp (- dt / t_efold r)) in
  discharge r dt =
    Ok {| Hwater := Hwater r - dH;
          Hmax := Hmax r;
          t_efold := t_efold r;
          excess := 0;
          f_to_discharge := f_to_discharge r;
          H_exfiltrated := Some (excess r + dH * f_to_discharge r);
          H_infiltrated := Some (dH * (1 - f_to_discharge r)) |}
  /\ forall e,
       exists r', discharge (set_excess r e) dt = Ok r' /\
         H_exfiltrated r' = Some (e + dH * f_to_discharge r) /\
         H_infiltrated r' = Some (dH * (1 - f_to_discharge r)).
Proof.
  intros _ Ht dH. split.
  - rewrite discharge_nonzero by lra. reflexivity.
  - intros e. eexists. split.
    + apply discharge_nonzero. simpl. lra.
    + split; reflexivity.
Qed.

Lemma discharge_split_witness :
  discharge sample_reservoir 1 =
    Ok {| Hwater := 8 - 8 * (1 - exp (- 1 / 5));
          Hmax := Finite 10;
          t_efold := 5;
          excess := 0;
          f_to_discharge := 0.25;
          H_exfiltrated := Some (0 + 8 * (1 - exp (- 1 / 5)) * 0.25);
          H_infiltrated := Some (8 * (1 - exp (- 1 / 5)) * (1 - 0.25)) |}.
Proof.
  apply (discharge_split sample_reservoir 1); simpl; lra.
Defined.

(** Integer operands.  An int [dt] below an int [t_efold] gives the
    quotient -1, whatever the two are: the reservoir drains over one whole
    e-folding time. *)
Lemma py_div_int_floors (dt te : Z) :
  (0 < dt < te)%Z -> py_div_int (- dt)%Z te = Ok (-1)%Z.
Proof.
  intros Hlt. unfold py_div_int. destruct (Z.eq_dec te 0%Z); [lia|].
  f_equal. symmetry. apply (Z.div_unique (- dt)%Z te (-1)%Z (te - dt)%Z); lia.
Qed.

Lemma exp_minus_1_differs : exp (-1) <> exp (- 1 / 5).
Proof.
  assert (exp (-1) < exp (- 1 / 5)) by (apply exp_increasing; lra). lra.
Qed.

(** C2, at the failing input.  [reservoir(5)] holding 10, discharged with
    the default [dt = 1] of [buckets]: both operands of [-dt/self.t_efold]
    are ints, the quotient is -1 and not -1/5, and the call depletes
    [10 * (1 - exp(-1))], which is not the [10 * (1 - exp(-1/5))] of the
    formula; the level left and the amount exfiltrated differ from the
    formula's accordingly. *)
Theorem discharge_int_operands_floor :
  exists r',
    discharge_int int_reservoir 1 5 = Ok r' /\
    t_efold int_reservoir = IZR 5 /\
    Hwater r' = 10 - 10 * (1 - exp (-1)) /\
    H_exfiltrated r' = Some (0 + 10 * (1 - exp (-1)) * 1) /\
    Hwater r' <> 10 - 10 * (1 - exp (- 1 / 5)) /\
    H_exfiltrated r' <> Some (0 + 10 * (1 - exp (- 1 / 5)) * 1).
Proof.
  eexists. split.
  - unfold discharge_int. rewrite py_div_int_floors by lia. reflexivity.
  - pose proof exp_minus_1_differs as Hne. simpl.
    repeat split; try reflexivity.
    + intros E. apply Hne. lra.
    + intros E. injection E as E. apply Hne. lra.
Qed.

Lemma le_cap_true x c : le_cap x (Finite c) = true <-> x <= c.
Proof. simpl. destruct (Rle_dec x c); split; easy. Qed.

Lemma gt_cap_true x c : gt_cap x (Finite c) = true <-> x > c.
Proof. simpl. destruct (Rgt_dec x c); split; easy. Qed.

Lemma set_excess_same r : set_excess r (excess r + 0) = r.
Proof. destruct r. unfold set_excess. simpl. now rewrite Rplus_0_r. Qed.

(** The three paths of [recharge]. *)
Lemma recharge_negative r H :
  Hwater r < 0 -> recharge r H = set_Hwater r 0.
Proof.
  intros Hneg. unfold recharge. destruct (Rlt_dec (Hwater r) 0); [|lra].
  change (set_excess (set_Hwater r 0) (excess (set_Hwater r 0) + 0)
          = set_Hwater r 0).
  apply set_excess_same.
Qed.

Lemma recharge_fits r H :
  0 <= Hwater r -> le_cap (Hwater r + H) (Hmax r) = true ->
  recharge r H = set_Hwater r (Hwater r + H).
Proof.
  intros Hpos Hle. unfold recharge. destruct (Rlt_dec (Hwater r) 0); [lra|].
  rewrite Hle.
  change (set_excess (set_Hwater r (Hwater r + H))
            (excess (set_Hwater r (Hwater r + H)) + 0)
          = set_Hwater r (Hwater r + H)).
  apply set_excess_same.
Qed.

Lemma recharge_overflows r H c :
  Hmax r = Finite c -> 0 <= Hwater r -> Hwater r + H > c ->
  recharge r H = set_excess (set_Hwater r c) (excess r + (Hwater r + H - c)).
Proof.
  intros Hc Hpos Hgt. unfold recharge.
  destruct (Rlt_dec (Hwater r) 0); [lra|]. rewrite Hc.
  assert (le_cap (Hwater r + H) (Finite c) = false) as ->.
  { simpl. destruct (Rle_dec _ _); [lra|easy]. }
  assert (gt_cap (Hwater r + H) (Finite c) = true) as ->.
  { now apply gt_cap_true. }
  reflexivity.
Qed.

(** C3.  A recharge that would lift a non-negative level above a finite
    capacity [c] leaves the level at exactly [c] and adds the surplus
    [Hwater + amount - c] to [excess], changing nothing else.  A reservoir
    of capacity 10 that holds 8, with nothing pending, recharged with 5,
    ends at level 10 with 3 pending; the discharge that follows puts that 3
    into [H_exfiltrated] whole, next to the share [dH * f_to_discharge] of
    the depleted water, and none of it into [H_infiltrated], whatever
    [f_to_discharge] is. *)
Theorem recharge_overflow_routed r amount c :
  Hmax r = Finite c -> 0 <= Hwater r -> Hwater r + amount > c ->
  let r1 := recharge r amount in
  Hwater r1 = c /\
  excess r1 = excess r + (Hwater r + amount - c) /\
  r1 = set_excess (set_Hwater r c) (excess r1) /\
  (Hwater r = 8 -> c = 10 -> amount = 5 -> excess r = 0 ->
   Hwater r1 = 10 /\ excess r1 = 3 /\
   forall dt, t_efold r <> 0 ->
     let dH := 10 * (1 - exp (- dt / t_efold r)) in
     exists r2, discharge r1 dt = Ok r2 /\
       H_exfiltrated r2 = Some (3 + dH * f_to_discharge r) /\
       H_infiltrated r2 = Some (dH * (1 - f_to_discharge r))).
Proof.
  intros Hc Hpos Hgt r1.
  assert (r1 = set_excess (set_Hwater r c) (excess r + (Hwater r + amount - c)))
    as E by now apply recharge_overflows.
  repeat split; try (rewrite E; reflexivity).
  - rewrite E. simpl. lra.
  - rewrite E. simpl. lra.
  - intros dt Ht dH. eexists. split.
    + apply discharge_nonzero. now rewrite E.
    + rewrite E. simpl. subst dH. split; do 2 f_equal; subst c; lra.
Qed.

Lemma recharge_overflow_routed_witness :
  Hwater (recharge sample_reservoir 5) = 10 /\
  excess (recharge sample_reservoir 5) = 3.
Proof.
  assert (Hmax sample_reservoir = Finite 10) as Hc by reflexivity.
  assert (0 <= Hwater sample_reservoir) as Hpos by (simpl; lra).
  assert (Hwater sample_reservoir + 5 > 10) as Hgt by (simpl; lra).
  destruct (recharge_overflow_routed sample_reservoir 5 10 Hc Hpos Hgt)
    as (_ & _ & _ & Hex).
  destruct Hex as (Hw & He & _); try reflexivity.
  split; assumption.
Defined.

(** C4.  A recharge that finds the level strictly negative sets it to
    exactly 0 and drops the amount, whatever its sign: the reservoir it
    leaves is the one it found with [Hwater] replaced by 0, so [excess] and
    every other attribute are as before and the result is the same for all
    amounts. *)
Theorem recharge_negative_level_discards r amount :
  Hwater r < 0 ->
  recharge r amount = set_Hwater r 0 /\
  Hwater (recharge r amount) = 0 /\
  excess (recharge r amount) = excess r /\
  forall amount', recharge r amount' = recharge r amount.
Proof.
  intros Hneg. rewrite recharge_negative by assumption.
  repeat split. intros a'. now apply recharge_negative.
Qed.

Lemma recharge_negative_level_discards_witness :
  Hwater (recharge depleted_reservoir 7) = 0 /\
  excess (recharge depleted_reservoir 7) = excess depleted_reservoir.
Proof.
  assert (Hwater depleted_reservoir < 0) as Hneg by (simpl; lra).
  destruct (recharge_negative_level_discards depleted_reservoir 7 Hneg)
    as (_ & Hw & He & _).
  split; assumption.
Defined.

(** *** Mass balance *)

(** With an unbounded capacity nothing is ever rejected: [excess] is 0 in
    every state that the methods reach from a new reservoir. *)
Lemma unbounded_never_overflows te f r :
  reachable (reservoir_init te f Unbounded) r ->
  Hmax r = Unbounded /\ excess r = 0.
Proof.
  induction 1 as [|r H _ [IHm IHe]|r dt r' _ [IHm IHe] Hd|r h _ [IHm IHe]].
  - split; reflexivity.
  - split; [now rewrite (proj1 (recharge_fixed r H))|].
    unfold recharge. rewrite IHm. simpl.
    destruct (Rlt_dec (Hwater r) 0); simpl; lra.
  - unfold discharge in Hd. destruct (py_div _ _); [|discriminate].
    injection Hd as <-. split; [exact IHm|reflexivity].
  - split; assumption.
Qed.

(** One step of an unbounded reservoir, from any state with a non-negative
    level: what leaves is what came in, plus whatever was pending. *)
Lemma step_balance_pending r amount dt :
  Hmax r = Unbounded -> 0 <= Hwater r -> t_efold r <> 0 ->
  exists r', discharge (recharge r amount) dt = Ok r' /\
    exfiltratedThisStep r' + infiltratedThisStep r'
    = Hwater r + amount - Hwater r' + excess r.
Proof.
  intros Hm Hpos Ht.
  rewrite recharge_fits by (rewrite ?Hm; easy).
  eexists. split; [now apply discharge_nonzero|].
  unfold exfiltratedThisStep, infiltratedThisStep. simpl. lra.
Qed.

(** C5, amended.  Mass conservation in exact arithmetic.  For a reservoir
    built with an unbounded capacity, in any state the methods can bring it
    to where the level is not negative, the step [recharge(amount)] then
    [discharge(dt)] returns (the e-folding time being positive) and, its
    operations read as operations on real numbers, its outputs satisfy
    [H_exfiltrated + H_infiltrated = Hwater_before + amount - Hwater_after].
    In binary64 the two sides can differ by rounding, as the module of
    rounding facts above shows. *)
Theorem step_conserves_mass te f r amount dt :
  0 < te ->
  reachable (reservoir_init te f Unbounded) r ->
  0 <= Hwater r ->
  exists r' ex inf,
    discharge (recharge r amount) dt = Ok r' /\
    H_exfiltrated r' = Some ex /\
    H_infiltrated r' = Some inf /\
    ex + inf = Hwater r + amount - Hwater r'.
Proof.
  intros Hte Hreach Hpos.
  destruct (unbounded_never_overflows _ _ _ Hreach) as [Hm He].
  assert (t_efold r = te) as Ht.
  { clear -Hreach. induction Hreach as [|r H _ IH|r dt r' _ IH Hd|r h _ IH].
    - reflexivity.
    - now rewrite (proj1 (proj2 (recharge_fixed r H))).
    - unfold discharge in Hd. destruct (py_div _ _); [|discriminate].
      now injection Hd as <-.
    - exact IH. }
  rewrite recharge_fits by (rewrite ?Hm; easy).
  do 3 eexists. split; [apply discharge_nonzero; simpl; lra|].
  simpl. repeat split. rewrite He. lra.
Qed.

Lemma step_conserves_mass_witness :
  exists r' ex inf,
    discharge (recharge shallow_reservoir 10) 1 = Ok r' /\
    H_exfiltrated r' = Some ex /\
    H_infiltrated r' = Some inf /\
    ex + inf = Hwater shallow_reservoir + 10 - Hwater r'.
Proof.
  apply (step_conserves_mass 5 1 shallow_reservoir 10 1).
  - lra.
  - apply reach_initialize, reach_init.
  - simpl; lra.
Defined.

(** *** Net evapotranspiration beyond the stored water *)

(** C6, as the specification states it, fails: the recharge that takes 5
    from a level of 2 leaves the level at -3, not at 0. *)
Lemma recharge_below_zero_not_floored :
  Hwater (recharge shallow_reservoir (-5)) <> 0.
Proof.
  rewrite recharge_fits by (simpl; try lra; reflexivity). simpl. lra.
Qed.

(** C6, amended.  A reservoir at level 2 whose capacity is at least -3 (any
    capacity that is not negative, the unbounded one included) is at level
    -3 right after [recharge(-5)], and it is the call of [recharge] that
    follows, whatever its amount, that sets the level to 0. *)
Theorem recharge_deficit_floored_by_next_call r :
  Hwater r = 2 -> le_cap (-3) (Hmax r) = true ->
  Hwater (recharge r (-5)) = -3 /\
  (forall amount, Hwater (recharge (recharge r (-5)) amount) = 0).
Proof.
  intros Hw Hcap.
  assert (recharge r (-5) = set_Hwater r (-3)) as E.
  { rewrite recharge_fits; rewrite ?Hw; try lra.
    - f_equal. lra.
    - now replace (2 + -5) with (-3) by lra. }
  rewrite E. split; [reflexivity|].
  intros a. rewrite recharge_negative; [reflexivity|simpl; lra].
Qed.

Lemma recharge_deficit_floored_by_next_call_witness :
  Hwater (recharge shallow_reservoir (-5)) = -3 /\
  forall amount,
    Hwater (recharge (recharge shallow_reservoir (-5)) amount) = 0.
Proof.
  assert (Hwater shallow_reservoir = 2) as Hw by reflexivity.
  assert (le_cap (-3) (Hmax shallow_reservoir) = true) as Hcap by reflexivity.
  destruct (recharge_deficit_floored_by_next_call shallow_reservoir Hw Hcap)
    as (H1 & H2).
  split; assumption.
Defined.

End Reservoir.
(** * Properties of [buckets] *)

Section Buckets.

Implicit Types (b : buckets) (rs : list reservoir) (r : reservoir).

Lemma get_reservoir_at b i r :
  reservoirs b !! i = Some r -> get_reservoir i b = (Ok r, b).
Proof. intros E. unfold get_reservoir, bind, get. now rewrite E. Qed.

Lemma get_reservoir_out b i :
  reservoirs b !! i = None -> get_reservoir i b = (Raise IndexError, b).
Proof. intros E. unfold get_reservoir, bind, get. now rewrite E. Qed.

Lemma call_recharge_at b i r H :
  reservoirs b !! i = Some r ->
  call_recharge i H b
  = (Ok tt, with_reservoirs b (<[i := recharge r H]> (reservoirs b))).
Proof.
  intros E. unfold call_recharge, bind. now rewrite (get_reservoir_at _ _ _ E).
Qed.

Lemma call_discharge_at b i r :
  reservoirs b !! i = Some r -> t_efold r <> 0 ->
  call_discharge i b
  = (Ok tt, with_reservoirs b
              (<[i := discharge_with r (- dt b / t_efold r)]> (reservoirs b))).
Proof.
  intros E Ht. unfold call_discharge, bind.
  rewrite (get_reservoir_at _ _ _ E). unfold get, lift.
  now rewrite discharge_nonzero.
Qed.

Lemma read_exfiltrated_at b i r v :
  reservoirs b !! i = Some r -> H_exfiltrated r = Some v ->
  read_exfiltrated i b = (Ok v, b).
Proof.
  intros E Hv. unfold read_exfiltrated, bind.
  rewrite (get_reservoir_at _ _ _ E). unfold lift. now rewrite Hv.
Qed.

Lemma read_infiltrated_at b i r v :
  reservoirs b !! i = Some r -> H_infiltrated r = Some v ->
  read_infiltrated i b = (Ok v, b).
Proof.
  intros E Hv. unfold read_infiltrated, bind.
  rewrite (get_reservoir_at _ _ _ E). unfold lift. now rewrite Hv.
Qed.

Lemma lookup_below {A} (pre : list A) p x rest :
  (pre ++ p :: x :: rest) !! S (length pre) = Some x.
Proof. induction pre; [reflexivity|assumption]. Qed.

Lemma insert_below {A} (pre : list A) p x y rest :
  <[S (length pre) := y]> (pre ++ p :: x :: rest) = pre ++ p :: y :: rest.
Proof. induction pre; [reflexivity|]. simpl. now f_equal. Qed.

(** The loop of [update], started below a reservoir [p] that has already
    been stepped: it steps the reservoirs [rest] under [p] in order, each
    fed by the one above, and adds what they exfiltrate to [Qi]. *)
Lemma update_loop_sequence rest :
  forall pre p Qi b v,
    reservoirs b = pre ++ p :: rest ->
    H_infiltrated p = Some v ->
    Forall (fun r => t_efold r <> 0) rest ->
    update_loop (seq (S (length pre)) (length rest)) Qi b
    = (Ok (Qi + total_exfiltrated (cascade_sequence (dt b) v rest)),
       with_reservoirs b (pre ++ p :: cascade_sequence (dt b) v rest)).
Proof.
  induction rest as [|r rest IH]; intros pre p Qi b v Hrs Hv Hte.
  - simpl. unfold ret, total_exfiltrated. simpl. rewrite Rplus_0_r.
    rewrite <- Hrs. now destruct b.
  - inversion Hte as [|? ? Ht Hte']; subst.
    cbn [length seq update_loop].
    rewrite Nat.sub_1_r. cbn [Nat.pred].
    pose (k := length pre). fold k.
    set (r1 := recharge r v).
    set (r2 := discharge_with r1 (- dt b / t_efold r1)).
    set (b1 := with_reservoirs b (pre ++ p :: r1 :: rest)).
    set (b2 := with_reservoirs b (pre ++ p :: r2 :: rest)).
    assert (read_infiltrated k b = (Ok v, b)) as E1.
    { apply read_infiltrated_at with p; [|assumption].
      rewrite Hrs. now apply list_lookup_middle. }
    assert (call_recharge (S k) v b = (Ok tt, b1)) as E2.
    { rewrite (call_recharge_at b (S k) r) by (rewrite Hrs; apply lookup_below).
      unfold b1, k. now rewrite Hrs, insert_below. }
    assert (t_efold r1 <> 0) as Ht1.
    { unfold r1. now rewrite (proj1 (proj2 (recharge_fixed r v))). }
    assert (call_discharge (S k) b1 = (Ok tt, b2)) as E3.
    { rewrite (call_discharge_at b1 (S k) r1 (lookup_below _ _ _ _) Ht1).
      unfold b2, b1, k. cbn [reservoirs with_reservoirs dt].
      now rewrite insert_below. }
    assert (read_exfiltrated (S k) b2 = (Ok (exfiltratedThisStep r2), b2)) as E4.
    { apply read_exfiltrated_at with r2; [apply lookup_below|reflexivity]. }
    unfold bind at 1. rewrite E1.
    unfold bind at 1. rewrite E2.
    unfold bind at 1. rewrite E3.
    unfold bind at 1. rewrite E4.
    replace (S (S k)) with (S (length (pre ++ [p]))) by (rewrite length_app; simpl; lia).
    rewrite (IH (pre ++ [p]) r2 _ b2 (infiltratedThisStep r2)).
    + cbn [cascade_sequence]. unfold reservoir_step. fold r1.
      replace (t_efold r) with (t_efold r1)
        by (unfold r1; apply (recharge_fixed r v)).
      fold r2. unfold total_exfiltrated. cbn [map fold_right].
      unfold b2. cbn [dt with_reservoirs].
      rewrite <- !app_assoc. cbn [app].
      f_equal. f_equal. lra.
    + unfold b2. cbn [reservoirs with_reservoirs].
      now rewrite <- app_assoc.
    + reflexivity.
    + assumption.
Qed.

Lemma cascade_sequence_length dt input rs :
  length (cascade_sequence dt input rs) = length rs.
Proof.
  revert input. induction rs as [|r rs IH]; intros input; simpl; [|rewrite IH];
    reflexivity.
Qed.

Lemma cascade_sequence_t_efold dt input rs :
  map t_efold (cascade_sequence dt input rs) = map t_efold rs.
Proof.
  revert input. induction rs as [|r rs IH]; intros input; simpl; [easy|].
  rewrite IH. f_equal. apply (recharge_fixed r input).
Qed.

(** One reservoir's step is the call of [recharge] followed by the call of
    [discharge]. *)
Lemma reservoir_step_calls dt r input :
  t_efold r <> 0 ->
  discharge (recharge r input) dt = Ok (reservoir_step dt r input).
Proof.
  intros Ht. unfold reservoir_step.
  rewrite <- (proj1 (proj2 (recharge_fixed r input))) in *.
  now apply discharge_nonzero.
Qed.

(** Reservoir [i+1] of the sequence is stepped with what reservoir [i]
    infiltrated in this step. *)
Lemma cascade_sequence_below dt rs :
  forall input i r p',
    rs !! S i = Some r ->
    cascade_sequence dt input rs !! i = Some p' ->
    cascade_sequence dt input rs !! S i
    = Some (reservoir_step dt r (infiltratedThisStep p')).
Proof.
  induction rs as [|r0 rs IH]; intros input i r p' Hr Hp; [discriminate|].
  destruct i as [|i].
  - simpl in Hp. injection Hp as <-.
    destruct rs as [|r1 rs]; [discriminate|].
    simpl in Hr. injection Hr as <-. reflexivity.
  - simpl in *. now apply IH.
Qed.

(** [update] on a cascade whose first reservoir is [r0]. *)
Lemma update_runs_sequence b x e :
  reservoirs b <> [] ->
  Forall (fun r => t_efold r <> 0) (reservoirs b) ->
  update x e b
  = (Ok (total_exfiltrated (cascade_sequence (dt b) (x - e) (reservoirs b))),
     with_reservoirs b (cascade_sequence (dt b) (x - e) (reservoirs b))).
Proof.
  intros Hne Hnz.
  destruct (reservoirs b) as [|r0 rest] eqn:Hrs; [easy|]. clear Hne.
  inversion Hnz as [|? ? Ht0 Hrest]; subst.
  set (y := x - e).
  set (r1 := recharge r0 y).
  set (r2 := reservoir_step (dt b) r0 y).
  set (b1 := with_reservoirs b (r1 :: rest)).
  set (b2 := with_reservoirs b (r2 :: rest)).
  assert (call_recharge 0 y b = (Ok tt, b1)) as E1.
  { rewrite (call_recharge_at b 0 r0) by now rewrite Hrs.
    unfold b1. now rewrite Hrs. }
  assert (call_discharge 0 b1 = (Ok tt, b2)) as E2.
  { rewrite (call_discharge_at b1 0 r1); [| reflexivity |].
    - unfold b2, r2, reservoir_step. fold r1. cbn.
      do 5 f_equal. apply (recharge_fixed r0 y).
    - unfold r1. now rewrite (proj1 (proj2 (recharge_fixed r0 y))). }
  assert (read_exfiltrated 0 b2 = (Ok (exfiltratedThisStep r2), b2)) as E3.
  { now apply read_exfiltrated_at with r2. }
  unfold update. fold y.
  unfold bind at 1. rewrite E1.
  unfold bind at 1. rewrite E2.
  unfold bind at 1. rewrite E3.
  unfold bind, get. cbn [reservoirs b2 with_reservoirs length].
  rewrite Nat.sub_succ, Nat.sub_0_r.
  rewrite (update_loop_sequence rest [] r2 _ b2 (infiltratedThisStep r2));
    [|reflexivity|reflexivity|assumption].
  cbn [cascade_sequence]. fold r2.
  unfold total_exfiltrated. cbn [map fold_right app].
  reflexivity.
Qed.

Lemma positive_nonzero rs :
  Forall (fun r => 0 < t_efold r) rs -> Forall (fun r => t_efold r <> 0) rs.
Proof. intros Hpos. eapply Forall_impl; [exact Hpos|]. simpl. intros r Hr. lra. Qed.

(** C1.  On a cascade with at least one reservoir (e-folding times
    positive, so that no discharge fails), [update] returns, and what it
    returns and leaves behind is the outcome of the stated sequence:
    reservoir 0 is recharged with [rain - ET] and discharged over [dt];
    every later reservoir is recharged with what the reservoir above it
    infiltrated in this step and discharged over [dt]; the value returned
    is the sum of what the reservoirs exfiltrated; nothing else of the
    cascade changes. *)
Theorem update_performs_sequence b rain_at_timestep ET_at_timestep :
  reservoirs b <> [] ->
  Forall (fun r => 0 < t_efold r) (reservoirs b) ->
  let rs' := cascade_sequence (dt b) (rain_at_timestep - ET_at_timestep)
               (reservoirs b) in
  update rain_at_timestep ET_at_timestep b
  = (Ok (total_exfiltrated rs'), with_reservoirs b rs')
  /\ (forall r0, reservoirs b !! 0%nat = Some r0 ->
        discharge (recharge r0 (rain_at_timestep - ET_at_timestep)) (dt b)
        = Ok (reservoir_step (dt b) r0 (rain_at_timestep - ET_at_timestep))
        /\ rs' !! 0%nat
           = Some (reservoir_step (dt b) r0
                     (rain_at_timestep - ET_at_timestep)))
  /\ (forall i r p',
        reservoirs b !! S i = Some r -> rs' !! i = Some p' ->
        discharge (recharge r (infiltratedThisStep p')) (dt b)
        = Ok (reservoir_step (dt b) r (infiltratedThisStep p'))
        /\ rs' !! S i
           = Some (reservoir_step (dt b) r (infiltratedThisStep p'))).
Proof.
  intros Hne Hpos rs'. apply positive_nonzero in Hpos as Hnz.
  split; [|split].
  - now apply update_runs_sequence.
  - intros r0 Hr0. split.
    + apply reservoir_step_calls.
      apply (proj1 (Forall_lookup _ _) Hnz 0%nat r0 Hr0).
    + subst rs'. destruct (reservoirs b); [discriminate|].
      simpl in Hr0. injection Hr0 as <-. reflexivity.
  - intros i r p' Hr Hp. split.
    + apply reservoir_step_calls.
      apply (proj1 (Forall_lookup _ _) Hnz (S i) r Hr).
    + now apply cascade_sequence_below.
Qed.

Lemma update_performs_sequence_witness :
  update 10 0 sample_buckets
  = (Ok (total_exfiltrated
           (cascade_sequence 1 (10 - 0) (reservoirs sample_buckets))),
     with_reservoirs sample_buckets
       (cascade_sequence 1 (10 - 0) (reservoirs sample_buckets))).
Proof.
  apply (update_performs_sequence sample_buckets 10 0).
  - discriminate.
  - repeat constructor; simpl; lra.
Defined.

(** Where the hypotheses of the sequence fail.  Without reservoirs the
    first subscript raises and nothing changes; with a zero e-folding time
    at the top, the top reservoir is recharged and its discharge raises. *)
Lemma update_empty_raises b x e :
  reservoirs b = [] -> update x e b = (Raise IndexError, b).
Proof.
  intros Hrs. unfold update, call_recharge. unfold bind at 1. unfold bind at 1.
  rewrite get_reservoir_out; [reflexivity|now rewrite Hrs].
Qed.

Lemma update_zero_efold_raises b x e r0 rest :
  reservoirs b = r0 :: rest -> t_efold r0 = 0 ->
  update x e b
  = (Raise ZeroDivisionError, with_reservoirs b (recharge r0 (x - e) :: rest)).
Proof.
  intros Hrs Ht. unfold update. unfold bind at 1.
  rewrite (call_recharge_at b 0 r0) by now rewrite Hrs.
  rewrite Hrs. cbn [insert]. unfold call_discharge, bind.
  rewrite (get_reservoir_at _ 0 (recharge r0 (x - e))) by reflexivity.
  unfold get, lift. rewrite discharge_zero; [reflexivity|].
  now rewrite (proj1 (proj2 (recharge_fixed r0 (x - e)))).
Qed.

(** *** run *)

(** [run] without the argument [rain], on a cascade that has no rainfall
    series: the only change is that [Q] is the empty list. *)
Lemma run_no_rainfall b useET :
  rain b = None ->
  run None useET b
  = (Raise (SystemExit "Please set the rainfall time series"),
     with_Q b (Some [])).
Proof.
  intros Hrain. unfold run, bind, modify, ret, get, raise. simpl.
  now rewrite Hrain.
Qed.

(** C8.  With no rainfall series passed and none configured, [run] ends in
    the exit that carries the configuration message, and no simulation
    step has run: the reservoirs are as they were, nothing was printed and
    the discharge series holds no value. *)
Theorem run_without_rainfall_aborts b useET :
  rain b = None ->
  exists b',
    run None useET b
    = (Raise (SystemExit "Please set the rainfall time series"), b') /\
    reservoirs b' = reservoirs b /\
    stdout b' = stdout b /\
    time b' = time b /\
    Q b' = Some [].
Proof.
  intros Hrain. eexists. split; [now apply run_no_rainfall|].
  repeat split.
Qed.

Lemma run_without_rainfall_aborts_witness :
  exists b',
    run None false sample_buckets
    = (Raise (SystemExit "Please set the rainfall time series"), b') /\
    reservoirs b' = reservoirs sample_buckets /\
    stdout b' = stdout sample_buckets /\
    time b' = time sample_buckets /\
    Q b' = Some [].
Proof.
  apply (run_without_rainfall_aborts sample_buckets false). reflexivity.
Defined.

(** C10.  [run] empties [Q] before it looks for a rainfall series: when it
    fails for want of one, the discharge series [q] of the run before is
    gone and [Q] is the empty list, while everything else is untouched. *)
Theorem run_failure_resets_discharge_series b useET q :
  rain b = None -> Q b = Some q ->
  fst (run None useET b)
  = Raise (SystemExit "Please set the rainfall time series") /\
  Q (snd (run None useET b)) = Some [] /\
  snd (run None useET b) = with_Q b (Some []) /\
  (q <> [] -> Q (snd (run None useET b)) <> Q b).
Proof.
  intros Hrain Hq. rewrite run_no_rainfall by assumption. simpl.
  repeat split. intros Hne. rewrite Hq. congruence.
Qed.

Lemma run_failure_resets_discharge_series_witness :
  fst (run None false stale_buckets)
  = Raise (SystemExit "Please set the rainfall time series") /\
  Q (snd (run None false stale_buckets)) = Some [] /\
  Q (snd (run None false stale_buckets)) <> Q stale_buckets.
Proof.
  assert (rain stale_buckets = None) as Hrain by reflexivity.
  assert (Q stale_buckets = Some [1.5; 0.5]) as Hq by reflexivity.
  destruct (run_failure_resets_discharge_series stale_buckets false _ Hrain Hq)
    as (H1 & H2 & _ & H4).
  split; [exact H1|split; [exact H2|apply H4; discriminate]].
Defined.

(** With the argument [rain] left out, the first simulation step fails:
    both loops subscript the argument, which is [None], whatever series
    [self.rain] holds. *)
Lemma run_loop_omitted_argument b ti tis :
  run_loop None (ti :: tis) b = (Raise TypeError, b) /\
  run_loop_ET None (ti :: tis) b = (Raise TypeError, b).
Proof. split; reflexivity. Qed.

Lemma run_configured_series b useET x xs :
  rain b = Some (x :: xs) ->
  fst (run None useET b) = Raise TypeError /\
  Q (snd (run None useET b)) = Some [] /\
  reservoirs (snd (run None useET b)) = reservoirs b.
Proof.
  intros Hrain. unfold run, bind, modify, ret, get, print. simpl.
  rewrite Hrain. destruct useET; simpl; repeat split.
Qed.

(** C7, at the failing input.  On the cascade whose rainfall was configured
    as [10, 0, 0, 0] by [set_rainfall_time_series], [run()] raises a
    [TypeError] in the first step; no discharge is appended, so [Q] has
    length 0 where the rainfall has length 4. *)
Theorem run_configured_rainfall_raises :
  rain configured_buckets = Some [10; 0; 0; 0] /\
  fst (run None false configured_buckets) = Raise TypeError /\
  Q (snd (run None false configured_buckets)) = Some [] /\
  reservoirs (snd (run None false configured_buckets))
  = reservoirs configured_buckets.
Proof.
  split; [reflexivity|]. now apply run_configured_series with 10 [0; 0; 0].
Qed.

(** The good path, for comparison: with the series passed as the
    argument and evapotranspiration neglected, [run] steps the cascade once
    per rainfall value and collects the discharges in order. *)
Lemma subscript_middle pre x xs :
  subscript (Some (pre ++ x :: xs)) (length pre) = Ok x.
Proof. unfold subscript. now rewrite list_lookup_middle. Qed.

Lemma cascade_sequence_nonempty dt input rs :
  rs <> [] -> cascade_sequence dt input rs <> [].
Proof. destruct rs; [easy|discriminate]. Qed.

Lemma cascade_sequence_nonzero dt input rs :
  Forall (fun r => t_efold r <> 0) rs ->
  Forall (fun r => t_efold r <> 0) (cascade_sequence dt input rs).
Proof.
  revert input. induction rs as [|r rs IH]; intros input Hnz; simpl;
    [constructor|].
  inversion Hnz; subst. constructor; [|now apply IH].
  unfold reservoir_step. simpl.
  now rewrite (proj1 (proj2 (recharge_fixed r input))).
Qed.

Lemma run_loop_simulates xs :
  forall pre b q,
    Q b = Some q ->
    reservoirs b <> [] ->
    Forall (fun r => t_efold r <> 0) (reservoirs b) ->
    run_loop (Some (pre ++ xs)) (seq (length pre) (length xs)) b
    = (Ok tt,
       with_Q (with_reservoirs b (fst (simulate (dt b) (reservoirs b) xs)))
         (Some (q ++ snd (simulate (dt b) (reservoirs b) xs)))).
Proof.
  induction xs as [|x xs IH]; intros pre b q Hq Hne Hnz.
  - simpl. unfold ret. rewrite app_nil_r, <- Hq. now destruct b.
  - cbn [length seq run_loop].
    unfold bind at 1. unfold lift at 1. rewrite subscript_middle.
    unfold bind at 1. rewrite update_runs_sequence by assumption.
    set (rs' := cascade_sequence (dt b) (x - 0) (reservoirs b)).
    unfold bind at 1. unfold append_Q, bind, get, lift, modify.
    cbn [Q with_reservoirs]. rewrite Hq. cbn [getattr].
    replace (pre ++ x :: xs) with ((pre ++ [x]) ++ xs)
      by now rewrite <- app_assoc.
    replace (S (length pre)) with (length (pre ++ [x]))
      by (rewrite length_app; simpl; lia).
    rewrite (IH _ _ (q ++ [total_exfiltrated rs'])); cbn [reservoirs dt Q
      with_Q with_reservoirs].
    + cbn [simulate]. fold rs'. destruct (simulate (dt b) rs' xs) as [rsf qs].
      cbn [fst snd]. now rewrite <- app_assoc.
    + reflexivity.
    + now apply cascade_sequence_nonempty.
    + now apply cascade_sequence_nonzero.
Qed.

Lemma run_loop_simulates_all rn b q :
  Q b = Some q ->
  reservoirs b <> [] ->
  Forall (fun r => t_efold r <> 0) (reservoirs b) ->
  run_loop (Some rn) (seq 0 (length rn)) b
  = (Ok tt,
     with_Q (with_reservoirs b (fst (simulate (dt b) (reservoirs b) rn)))
       (Some (q ++ snd (simulate (dt b) (reservoirs b) rn)))).
Proof. exact (run_loop_simulates rn [] b q). Qed.

Lemma simulate_length dt rs xs : length (snd (simulate dt rs xs)) = length xs.
Proof.
  revert rs. induction xs as [|x xs IH]; intros rs; [reflexivity|].
  simpl. specialize (IH (cascade_sequence dt (x - 0) rs)).
  destruct (simulate _ _ xs). simpl in *. now rewrite IH.
Qed.

Lemma run_direct_series b rn :
  reservoirs b <> [] ->
  Forall (fun r => 0 < t_efold r) (reservoirs b) ->
  exists b',
    run (Some rn) false b = (Ok tt, b') /\
    rain b' = Some rn /\
    Q b' = Some (snd (simulate (dt b) (reservoirs b) rn)) /\
    reservoirs b' = fst (simulate (dt b) (reservoirs b) rn) /\
    (forall q, Q b' = Some q -> length q = length rn).
Proof.
  intros Hne Hpos. apply positive_nonzero in Hpos as Hnz.
  cbv [run bind modify get print ret set_rainfall_time_series].
  cbn [rain with_Q].
  destruct (rain b); cbn [rain with_Q with_rain with_stdout with_time];
    rewrite (run_loop_simulates_all rn _ []); try assumption; try reflexivity;
    (eexists; split; [reflexivity|]; cbn; repeat split;
     intros q [= <-]; apply simulate_length).
Qed.

End Buckets.

(** * The evapotranspiration formula *)

Section Evapotranspiration.

Lemma Chang_I_pos : 0 < Chang_I.
Proof. unfold Chang_I. lra. Qed.

Lemma Chang_a_i_bounds : 1 < Chang_a_i < 2.
Proof. unfold Chang_a_i, Chang_I. lra. Qed.

Lemma Chang_a_i_fractional : Chang_a_i <> IZR (Int_part Chang_a_i).
Proof.
  pose proof Chang_a_i_bounds as [Hlo Hhi]. intros E.
  rewrite E in Hlo, Hhi. apply lt_IZR in Hlo, Hhi. lia.
Qed.

Lemma py_pow_negative_base x :
  x < 0 -> py_pow x Chang_a_i = Raise ValueError.
Proof.
  intros Hx. pose proof Chang_a_i_bounds. unfold py_pow.
  destruct (Req_dec_T Chang_a_i 0); [lra|].
  destruct (Req_dec_T x 0); [lra|].
  destruct (Rlt_dec x 0); [|lra].
  destruct (Req_dec_T _ _) as [E|_]; [|reflexivity].
  now apply Chang_a_i_fractional in E.
Qed.

Lemma py_pow_zero_base : py_pow 0 Chang_a_i = Ok 0.
Proof.
  pose proof Chang_a_i_bounds. unfold py_pow.
  destruct (Req_dec_T Chang_a_i 0); [lra|].
  destruct (Req_dec_T 0 0); [|lra].
  destruct (Rlt_dec Chang_a_i 0); [lra|reflexivity].
Qed.

Lemma py_pow_positive_base x :
  0 < x -> py_pow x Chang_a_i = Ok (Rpower x Chang_a_i).
Proof.
  intros Hx. pose proof Chang_a_i_bounds. unfold py_pow.
  destruct (Req_dec_T Chang_a_i 0); [lra|].
  destruct (Req_dec_T x 0); [lra|].
  destruct (Rlt_dec x 0); [lra|reflexivity].
Qed.

(** From an effective temperature of zero upwards the formula has the three
    values of the specification. *)
Lemma Chang2019_regimes Tmax Tmin photoperiod :
  let Teff := Teff_of Tmax Tmin in
  let C := photoperiod / 360 in
  (Teff = 0 -> Chang2019 Tmax Tmin photoperiod = Ok 0) /\
  (0 < Teff < 26 ->
   Chang2019 Tmax Tmin photoperiod
   = Ok (16 * C * Rpower (10 * Teff / Chang_I) Chang_a_i)) /\
  (Teff >= 26 ->
   Chang2019 Tmax Tmin photoperiod
   = Ok (C * (-415.85 + 32.24 * Teff - 0.43 * Teff ^ 2))).
Proof.
  intros Teff C. unfold Chang2019. fold (Teff_of Tmax Tmin). fold Teff. fold C.
  pose proof Chang_I_pos as HI.
  split; [|split].
  - intros E. rewrite E.
    replace (10 * 0 / Chang_I) with 0 by (unfold Rdiv; ring).
    rewrite py_pow_zero_base. f_equal. unfold as_number.
    destruct (Rge_dec 0 26); [lra|]. destruct (Rgt_dec 0 0); [lra|]. ring.
  - intros [Hlo Hhi]. rewrite py_pow_positive_base.
    + f_equal. unfold as_number.
      destruct (Rge_dec Teff 26); [lra|]. destruct (Rgt_dec Teff 0); [|lra].
      destruct (Rlt_dec Teff 26); [|lra]. ring.
    + apply Rdiv_lt_0_compat; lra.
  - intros Hge. rewrite py_pow_positive_base.
    + f_equal. unfold as_number.
      destruct (Rge_dec Teff 26); [|lra]. destruct (Rgt_dec Teff 0); [|lra].
      destruct (Rlt_dec Teff 26); [lra|]. ring.
    + apply Rdiv_lt_0_compat; lra.
Qed.

(** Below zero the power is evaluated before the comparisons mask it, and
    it raises. *)
Lemma Chang2019_below_zero Tmax Tmin photoperiod :
  Teff_of Tmax Tmin < 0 ->
  Chang2019 Tmax Tmin photoperiod = Raise ValueError.
Proof.
  intros Hneg. unfold Chang2019. fold (Teff_of Tmax Tmin).
  rewrite py_pow_negative_base; [reflexivity|].
  pose proof Chang_I_pos.
  assert (0 < / Chang_I) by now apply Rinv_0_lt_compat.
  unfold Rdiv. nra.
Qed.

(** C9, at the failing input.  For a frost day with [Tmax = Tmin = -10]
    the effective temperature is -6.9, below zero, where the claim
    promises the value 0; the method raises [ValueError] and leaves
    [self.ET] as it was. *)
Theorem evapotranspirationChang2019_frost_raises (b : buckets) :
  Teff_of (-10) (-10) = -6.9 /\
  Chang2019 (-10) (-10) 12 = Raise ValueError /\
  evapotranspirationChang2019 (-10) (-10) 12 b = (Raise ValueError, b).
Proof.
  assert (Teff_of (-10) (-10) = -6.9) as E by (unfold Teff_of; lra).
  assert (Chang2019 (-10) (-10) 12 = Raise ValueError) as Hv.
  { apply Chang2019_below_zero. rewrite E. lra. }
  repeat split; [exact E|exact Hv|].
  unfold evapotranspirationChang2019, bind, lift. now rewrite Hv.
Qed.

End Evapotranspiration.

(** * Laws of one reservoir *)

Section ReservoirLaws.

Implicit Types (r : reservoir) (H dt : R).

Lemma exp_nonpos_le_1 q : q <= 0 -> 0 < exp q <= 1.
Proof.
  intros Hq. split; [apply exp_pos|].
  destruct Hq as [Hq | ->]; [|rewrite exp_0; lra].
  left. rewrite <- exp_0. now apply exp_increasing.
Qed.

Lemma exp_neg_lt_1 q : q < 0 -> exp q < 1.
Proof. intros Hq. rewrite <- exp_0. now apply exp_increasing. Qed.

Lemma step_exponent_nonpos dt te : 0 <= dt -> 0 < te -> - dt / te <= 0.
Proof.
  intros Hdt Hte. assert (0 < / te) by now apply Rinv_0_lt_compat.
  unfold Rdiv. nra.
Qed.

Lemma step_exponent_neg dt te : 0 < dt -> 0 < te -> - dt / te < 0.
Proof.
  intros Hdt Hte. assert (0 < / te) by now apply Rinv_0_lt_compat.
  unfold Rdiv. nra.
Qed.

Lemma le_cap_refl_overflow r H :
  le_cap (Hwater r + H) (Hmax r) = false ->
  exists c, Hmax r = Finite c /\ Hwater r + H > c.
Proof.
  destruct (Hmax r) as [c|]; simpl; [|discriminate].
  destruct (Rle_dec _ _); [discriminate|]. intros _. exists c. split; [easy|lra].
Qed.

(** X1.  Whatever the level before and whatever the amount, a recharge
    never leaves the level above a capacity that is not negative. *)
Theorem recharge_within_capacity r H :
  le_cap 0 (Hmax r) = true ->
  le_cap (Hwater (recharge r H)) (Hmax r) = true.
Proof.
  intros Hcap. destruct (Rlt_dec (Hwater r) 0) as [Hneg|Hpos].
  - now rewrite recharge_negative.
  - apply Rnot_lt_le in Hpos.
    destruct (le_cap (Hwater r + H) (Hmax r)) eqn:E.
    + now rewrite recharge_fits.
    + destruct (le_cap_refl_overflow _ _ E) as (c & Hc & Hgt).
      rewrite (recharge_overflows r H c) by assumption. rewrite Hc. simpl.
      destruct (Rle_dec c c); [reflexivity|lra].
Qed.

Lemma recharge_within_capacity_witness :
  le_cap (Hwater (recharge sample_reservoir 100)) (Hmax sample_reservoir)
  = true.
Proof.
  apply (recharge_within_capacity sample_reservoir 100).
  simpl. destruct (Rle_dec 0 10); [reflexivity|lra].
Defined.

(** X4.  The physical range is kept: with a level and a net level after
    recharge that are not negative, a capacity that is not negative,
    nothing negative pending, a discharge fraction in [0, 1], [dt >= 0] and
    a positive e-folding time, the step returns with a level between 0 and
    the capacity and with outputs that are not negative. *)
Theorem step_keeps_physical_range r amount dt :
  0 <= Hwater r -> 0 <= Hwater r + amount ->
  le_cap 0 (Hmax r) = true -> 0 <= excess r ->
  0 <= f_to_discharge r <= 1 -> 0 <= dt -> 0 < t_efold r ->
  exists r' ex inf,
    discharge (recharge r amount) dt = Ok r' /\
    H_exfiltrated r' = Some ex /\ H_infiltrated r' = Some inf /\
    0 <= Hwater r' /\ le_cap (Hwater r') (Hmax r') = true /\
    0 <= ex /\ 0 <= inf /\ excess r' = 0.
Proof.
  intros Hpos Hnet Hcap Hex Hf Hdt Hte.
  pose proof (exp_nonpos_le_1 _ (step_exponent_nonpos dt _ Hdt Hte)) as [He0 He1].
  set (q := - dt / t_efold r) in *.
  assert (exists L e, recharge r amount = set_excess (set_Hwater r L) e /\
            0 <= L /\ le_cap L (Hmax r) = true /\ 0 <= e) as (L & e & E & HL & HLc & He).
  { destruct (le_cap (Hwater r + amount) (Hmax r)) eqn:Efit.
    - exists (Hwater r + amount), (excess r). split; [|easy].
      rewrite recharge_fits by assumption. now destruct r.
    - destruct (le_cap_refl_overflow _ _ Efit) as (c & Hc & Hgt).
      exists c, (excess r + (Hwater r + amount - c)).
      split; [now apply recharge_overflows|].
      rewrite Hc in *. apply le_cap_true in Hcap.
      repeat split; [lra| |lra].
      simpl. destruct (Rle_dec c c); [reflexivity|lra]. }
  assert (0 <= L * (1 - exp q)) as HdH by (apply Rmult_le_pos; lra).
  assert (0 <= L * (1 - exp q) * f_to_discharge r) as Hout
    by (apply Rmult_le_pos; lra).
  assert (0 <= L * (1 - exp q) * (1 - f_to_discharge r)) as Hin
    by (apply Rmult_le_pos; lra).
  do 3 eexists. split.
  - apply discharge_nonzero. rewrite E. simpl. lra.
  - rewrite E. simpl. fold q. repeat split; try nra.
    destruct (Hmax r) as [c|]; [|reflexivity].
    apply le_cap_true in HLc. apply le_cap_true. nra.
Qed.

Lemma step_keeps_physical_range_witness :
  exists r' ex inf,
    discharge (recharge sample_reservoir 5) 1 = Ok r' /\
    H_exfiltrated r' = Some ex /\ H_infiltrated r' = Some inf /\
    0 <= Hwater r' /\ le_cap (Hwater r') (Hmax r') = true /\
    0 <= ex /\ 0 <= inf /\ excess r' = 0.
Proof.
  apply (step_keeps_physical_range sample_reservoir 5 1); simpl; try lra.
  destruct (Rle_dec 0 10); [reflexivity|lra].
Defined.

(** X5.  A net loss larger than the stored water yields no discharge: when
    the recharge takes the level below zero, the discharge of the same step
    exfiltrates and infiltrates nothing positive, and the level it leaves
    is not positive either. *)
Theorem overdrawn_step_never_positive r amount dt :
  0 <= Hwater r -> Hwater r + amount < 0 ->
  le_cap 0 (Hmax r) = true -> excess r = 0 ->
  0 <= f_to_discharge r <= 1 -> 0 <= dt -> 0 < t_efold r ->
  Hwater (recharge r amount) < 0 /\
  exists r' ex inf,
    discharge (recharge r amount) dt = Ok r' /\
    H_exfiltrated r' = Some ex /\ H_infiltrated r' = Some inf /\
    ex <= 0 /\ inf <= 0 /\ Hwater r' <= 0.
Proof.
  intros Hpos Hnet Hcap Hex Hf Hdt Hte.
  pose proof (exp_nonpos_le_1 _ (step_exponent_nonpos dt _ Hdt Hte))
    as [He0 He1].
  assert (le_cap (Hwater r + amount) (Hmax r) = true) as Hfit.
  { destruct (Hmax r) as [c|]; [|reflexivity].
    apply le_cap_true in Hcap. apply le_cap_true. lra. }
  rewrite recharge_fits by assumption. split; [simpl; lra|].
  assert ((Hwater r + amount) * (1 - exp (- dt / t_efold r)) <= 0)
    as HdH by nra.
  assert ((Hwater r + amount) * (1 - exp (- dt / t_efold r))
          * f_to_discharge r <= 0) as Hout by nra.
  assert ((Hwater r + amount) * (1 - exp (- dt / t_efold r))
          * (1 - f_to_discharge r) <= 0) as Hin by nra.
  assert ((Hwater r + amount) * exp (- dt / t_efold r) <= 0) by nra.
  do 3 eexists. split.
  - apply discharge_nonzero. simpl. lra.
  - simpl. rewrite Hex.
    split; [reflexivity|]. split; [reflexivity|]. repeat split; lra.
Qed.

Lemma overdrawn_step_never_positive_witness :
  Hwater (recharge shallow_reservoir (-5)) < 0 /\
  exists r' ex inf,
    discharge (recharge shallow_reservoir (-5)) 1 = Ok r' /\
    H_exfiltrated r' = Some ex /\ H_infiltrated r' = Some inf /\
    ex <= 0 /\ inf <= 0 /\ Hwater r' <= 0.
Proof.
  apply (overdrawn_step_never_positive shallow_reservoir (-5) 1);
    simpl; try lra; reflexivity.
Defined.

End ReservoirLaws.

(** * Laws of the cascade step *)

Section CascadeLaws.

Implicit Types (b : buckets) (rs : list reservoir) (r : reservoir).

Lemma cascade_sequence_shape dt rs :
  forall input,
    map Hmax (cascade_sequence dt input rs) = map Hmax rs /\
    map f_to_discharge (cascade_sequence dt input rs) = map f_to_discharge rs /\
    Forall (fun r => excess r = 0 /\ is_Some (H_exfiltrated r)
                     /\ is_Some (H_infiltrated r))
      (cascade_sequence dt input rs).
Proof.
  induction rs as [|r rs IH]; intros input; [now repeat split|].
  destruct (IH (infiltratedThisStep (reservoir_step dt r input)))
    as (IH1 & IH2 & IH3).
  cbn [cascade_sequence map]. rewrite IH1, IH2.
  repeat split; [f_equal; apply (recharge_fixed r input)
                |f_equal; apply (recharge_fixed r input)|].
  constructor; [|assumption]. simpl. repeat split; eexists; reflexivity.
Qed.

(** X7.  [update] changes levels and outputs only: the cascade has the
    same number of reservoirs with the same capacities, e-folding times and
    discharge fractions; afterwards nothing is pending in any reservoir and
    every reservoir has both outputs; the series, the time step and what
    was printed are untouched. *)
Theorem update_keeps_parameters b x e :
  reservoirs b <> [] ->
  Forall (fun r => 0 < t_efold r) (reservoirs b) ->
  exists Qi rs',
    update x e b = (Ok Qi, with_reservoirs b rs') /\
    length rs' = length (reservoirs b) /\
    map Hmax rs' = map Hmax (reservoirs b) /\
    map t_efold rs' = map t_efold (reservoirs b) /\
    map f_to_discharge rs' = map f_to_discharge (reservoirs b) /\
    Forall (fun r => excess r = 0 /\ is_Some (H_exfiltrated r)
                     /\ is_Some (H_infiltrated r)) rs'.
Proof.
  intros Hne Hte. do 2 eexists. split.
  - apply update_runs_sequence; [assumption|now apply positive_nonzero].
  - split; [apply cascade_sequence_length|].
    split; [apply cascade_sequence_shape|].
    split; [apply cascade_sequence_t_efold|].
    split; apply cascade_sequence_shape.
Qed.

Lemma update_keeps_parameters_witness :
  exists Qi rs',
    update 10 2 sealed_buckets = (Ok Qi, with_reservoirs sealed_buckets rs') /\
    length rs' = length (reservoirs sealed_buckets) /\
    map Hmax rs' = map Hmax (reservoirs sealed_buckets) /\
    map t_efold rs' = map t_efold (reservoirs sealed_buckets) /\
    map f_to_discharge rs' = map f_to_discharge (reservoirs sealed_buckets) /\
    Forall (fun r => excess r = 0 /\ is_Some (H_exfiltrated r)
                     /\ is_Some (H_infiltrated r)) rs'.
Proof.
  apply (update_keeps_parameters sealed_buckets 10 2).
  - discriminate.
  - repeat constructor; simpl; lra.
Defined.

(** X8.  A top reservoir with [f_to_discharge = 1] seals the cascade: the
    reservoir under it is recharged with 0 whatever the rain and the
    evapotranspiration, so the step it takes is the step that a recharge
    of 0 gives; a level between 0 and its capacity does not rise and does
    not become negative. *)
Theorem update_sealed_top b x e r0 r1 rest :
  reservoirs b = r0 :: r1 :: rest ->
  Forall (fun r => 0 < t_efold r) (reservoirs b) ->
  f_to_discharge r0 = 1 ->
  exists Qi b' r1',
    update x e b = (Ok Qi, b') /\
    reservoirs b' !! 1%nat = Some r1' /\
    r1' = reservoir_step (dt b) r1 0 /\
    (0 <= Hwater r1 -> le_cap (Hwater r1) (Hmax r1) = true -> 0 <= dt b ->
     0 <= Hwater r1' <= Hwater r1).
Proof.
  intros Hrs Hte Hf. do 3 eexists. split.
  - apply update_runs_sequence; [now rewrite Hrs|now apply positive_nonzero].
  - rewrite Hrs. cbn [reservoirs with_reservoirs cascade_sequence].
    assert (infiltratedThisStep (reservoir_step (dt b) r0 (x - e)) = 0) as ->.
    { unfold infiltratedThisStep, reservoir_step. simpl.
      rewrite (proj2 (proj2 (recharge_fixed r0 (x - e)))), Hf. ring. }
    split; [reflexivity|]. split; [reflexivity|].
    intros Hpos Hcap Hdt.
    assert (0 < t_efold r1) as Ht1.
    { rewrite Hrs in Hte. inversion Hte as [|? ? _ Hte']; subst.
      now inversion Hte'. }
    pose proof (exp_nonpos_le_1 _ (step_exponent_nonpos _ _ Hdt Ht1))
      as [He0 He1].
    unfold reservoir_step.
    rewrite recharge_fits by (rewrite ?Rplus_0_r; assumption).
    simpl. rewrite Rplus_0_r. split; nra.
Qed.

Lemma update_sealed_top_witness :
  exists Qi b' r1',
    update 10 2 sealed_buckets = (Ok Qi, b') /\
    reservoirs b' !! 1%nat = Some r1' /\
    r1' = reservoir_step 1 (set_Hwater (reservoir_init 30 0.5 Unbounded) 6) 0.
Proof.
  destruct (update_sealed_top sealed_buckets 10 2
              (set_Hwater (reservoir_init 5 1 (Finite 10)) 4)
              (set_Hwater (reservoir_init 30 0.5 Unbounded) 6) [])
    as (Qi & b' & r1' & Hu & Hl & Hr & _).
  - reflexivity.
  - repeat constructor; simpl; lra.
  - reflexivity.
  - exists Qi, b', r1'. repeat split; assumption.
Defined.

(** X9.  Recession: without rain the discharge of a single reservoir does
    not rise.  With a level between 0 and the capacity, nothing pending, a
    discharge fraction that is not negative, [dt >= 0] and a positive
    e-folding time, two updates without rain or evapotranspiration return
    discharges [Q1] and [Q2] with [0 <= Q2 <= Q1]. *)
Theorem update_recession b r :
  reservoirs b = [r] ->
  0 < t_efold r -> 0 <= dt b -> 0 <= f_to_discharge r ->
  0 <= Hwater r -> le_cap (Hwater r) (Hmax r) = true -> excess r = 0 ->
  exists Q1 b1 Q2 b2,
    update 0 0 b = (Ok Q1, b1) /\
    update 0 0 b1 = (Ok Q2, b2) /\
    0 <= Q2 <= Q1.
Proof.
  intros Hrs Hte Hdt Hf Hpos Hcap Hex.
  pose proof (exp_nonpos_le_1 _ (step_exponent_nonpos _ _ Hdt Hte)) as [He0 He1].
  assert (forall r0, 0 <= Hwater r0 -> le_cap (Hwater r0) (Hmax r0) = true ->
            recharge r0 (0 - 0) = r0) as Hzero.
  { intros r0 H0 Hc. rewrite recharge_fits; try assumption.
    - destruct r0. unfold set_Hwater. simpl. f_equal. lra.
    - now replace (Hwater r0 + (0 - 0)) with (Hwater r0) by lra. }
  remember (- dt b / t_efold r) as q eqn:Eq.
  pose (r1 := discharge_with r q).
  assert (0 <= Hwater r1 /\ le_cap (Hwater r1) (Hmax r1) = true) as [Hpos1 Hcap1].
  { unfold r1. simpl. split; [nra|].
    destruct (Hmax r) as [c|]; [|reflexivity].
    apply le_cap_true in Hcap. apply le_cap_true. nra. }
  do 4 eexists. split; [|split].
  - apply update_runs_sequence; rewrite Hrs; [discriminate|].
    repeat constructor. lra.
  - apply update_runs_sequence; cbn [reservoirs with_reservoirs];
      rewrite Hrs; cbn [cascade_sequence]; [discriminate|].
    repeat constructor. unfold reservoir_step. simpl.
    rewrite (proj1 (proj2 (recharge_fixed _ _))). lra.
  - cbn [reservoirs with_reservoirs dt]. rewrite Hrs.
    cbn [cascade_sequence]. unfold reservoir_step.
    rewrite (Hzero r Hpos Hcap). rewrite <- Eq. fold r1.
    replace (t_efold r1) with (t_efold r) by reflexivity.
    rewrite (Hzero r1 Hpos1 Hcap1). rewrite <- Eq.
    unfold total_exfiltrated, exfiltratedThisStep. simpl. rewrite Hex.
    remember (Hwater r) as h eqn:Eh. remember (exp q) as E eqn:EE.
    remember (f_to_discharge r) as f eqn:Ef.
    assert (0 <= h * (1 - E)) by nra.
    assert (0 <= (h - h * (1 - E)) * (1 - E)) by nra.
    assert ((h - h * (1 - E)) * (1 - E) <= h * (1 - E)) by nra.
    split; nra.
Qed.

Lemma update_recession_witness :
  exists Q1 b1 Q2 b2,
    update 0 0 draining_buckets = (Ok Q1, b1) /\
    update 0 0 b1 = (Ok Q2, b2) /\
    0 <= Q2 <= Q1.
Proof.
  apply (update_recession draining_buckets
           (set_Hwater (reservoir_init 5 1 Unbounded) 10));
    simpl; try lra; reflexivity.
Defined.

(** The loop of [update] when a reservoir [z] with a zero e-folding time
    lies under the reservoirs [good]: the reservoirs above [z] are stepped,
    [z] is recharged, and its discharge raises. *)
Lemma update_loop_stops good :
  forall pre p Qi b v z tail,
    reservoirs b = pre ++ p :: good ++ z :: tail ->
    H_infiltrated p = Some v ->
    Forall (fun r => t_efold r <> 0) good ->
    t_efold z = 0 ->
    update_loop (seq (S (length pre)) (length (good ++ z :: tail))) Qi b
    = (Raise ZeroDivisionError,
       with_reservoirs b
         (pre ++ p :: cascade_sequence (dt b) v good
              ++ recharge z (cascade_outflow (dt b) v good) :: tail)).
Proof.
  induction good as [|r good IH]; intros pre p Qi b v z tail Hrs Hv Hnz Hz.
  - cbn [app length seq update_loop cascade_sequence cascade_outflow].
    rewrite Nat.sub_1_r. cbn [Nat.pred].
    unfold bind at 1.
    rewrite (read_infiltrated_at b (length pre) p v)
      by (try assumption; rewrite Hrs; now apply list_lookup_middle).
    unfold bind at 1.
    rewrite (call_recharge_at b (S (length pre)) z)
      by (rewrite Hrs; apply lookup_below).
    rewrite Hrs. cbn [app]. rewrite insert_below.
    unfold call_discharge, bind.
    rewrite (get_reservoir_at _ (S (length pre)) (recharge z v))
      by apply lookup_below.
    unfold get, lift. rewrite discharge_zero; [reflexivity|].
    now rewrite (proj1 (proj2 (recharge_fixed z v))).
  - inversion Hnz as [|? ? Ht Hnz']; subst.
    cbn [app length seq update_loop].
    rewrite Nat.sub_1_r. cbn [Nat.pred].
    pose (r1 := recharge r v).
    pose (r2 := discharge_with r1 (- dt b / t_efold r1)).
    pose (b1 := with_reservoirs b (pre ++ p :: r1 :: good ++ z :: tail)).
    pose (b2 := with_reservoirs b (pre ++ p :: r2 :: good ++ z :: tail)).
    assert (read_infiltrated (length pre) b = (Ok v, b)) as E1.
    { apply read_infiltrated_at with p; [|assumption].
      rewrite Hrs. now apply list_lookup_middle. }
    assert (call_recharge (S (length pre)) v b = (Ok tt, b1)) as E2.
    { rewrite (call_recharge_at b (S (length pre)) r)
        by (rewrite Hrs; apply lookup_below).
      unfold b1. cbn [app] in Hrs. now rewrite Hrs, insert_below. }
    assert (t_efold r1 <> 0) as Ht1.
    { unfold r1. now rewrite (proj1 (proj2 (recharge_fixed r v))). }
    assert (call_discharge (S (length pre)) b1 = (Ok tt, b2)) as E3.
    { rewrite (call_discharge_at b1 (S (length pre)) r1
                 (lookup_below _ _ _ _) Ht1).
      unfold b2, b1. cbn [reservoirs with_reservoirs dt].
      now rewrite insert_below. }
    assert (read_exfiltrated (S (length pre)) b2
            = (Ok (exfiltratedThisStep r2), b2)) as E4.
    { apply read_exfiltrated_at with r2; [apply lookup_below|reflexivity]. }
    unfold bind at 1. rewrite E1.
    unfold bind at 1. rewrite E2.
    unfold bind at 1. rewrite E3.
    unfold bind at 1. rewrite E4.
    replace (S (S (length pre))) with (S (length (pre ++ [p])))
      by (rewrite length_app; simpl; lia).
    rewrite (IH (pre ++ [p]) r2 _ b2 (infiltratedThisStep r2) z tail).
    + cbn [cascade_sequence cascade_outflow]. unfold reservoir_step.
      fold r1. replace (t_efold r) with (t_efold r1)
        by (unfold r1; apply (recharge_fixed r v)).
      fold r2. unfold b2. cbn [dt with_reservoirs].
      rewrite <- !app_assoc. reflexivity.
    + unfold b2. cbn [reservoirs with_reservoirs].
      now rewrite <- app_assoc.
    + reflexivity.
    + assumption.
    + assumption.
Qed.

(** X10.  Without reservoirs there is no step: [update] raises
    [IndexError] at the first subscript and changes nothing, and a [run]
    over a rainfall series that is not empty ends with the same error, no
    discharge recorded. *)
Theorem update_without_reservoirs_raises b x e xs :
  reservoirs b = [] ->
  update x e b = (Raise IndexError, b) /\
  exists b',
    run (Some (x :: xs)) false b = (Raise IndexError, b') /\
    Q b' = Some [] /\ reservoirs b' = [].
Proof.
  intros Hrs. split; [now apply update_empty_raises|].
  cbv [run bind modify get print ret set_rainfall_time_series].
  cbn [rain with_Q].
  destruct (rain b); cbn [rain with_Q with_rain with_stdout with_time length];
    cbn [seq run_loop]; cbv [bind lift]; cbn [subscript lookup list_lookup];
    rewrite update_empty_raises by exact Hrs;
    eexists; (split; [reflexivity|]); now split.
Qed.

Lemma update_without_reservoirs_raises_witness :
  update 10 0 empty_buckets = (Raise IndexError, empty_buckets).
Proof.
  apply (update_without_reservoirs_raises empty_buckets 10 0 []). reflexivity.
Defined.

(** X11.  A zero e-folding time stops the step half way: [update] raises
    [ZeroDivisionError] at the first reservoir [z] that has one, after it
    has stepped the reservoirs above [z] and recharged [z] with what
    reached it; [z] is not discharged and the reservoirs under it are
    untouched. *)
Theorem update_stops_at_zero_efold b x e good z tail :
  reservoirs b = good ++ z :: tail ->
  Forall (fun r => t_efold r <> 0) good ->
  t_efold z = 0 ->
  update x e b
  = (Raise ZeroDivisionError,
     with_reservoirs b
       (cascade_sequence (dt b) (x - e) good
        ++ recharge z (cascade_outflow (dt b) (x - e) good) :: tail)).
Proof.
  intros Hrs Hnz Hz. destruct good as [|r0 good].
  - now apply update_zero_efold_raises.
  - inversion Hnz as [|? ? Ht0 Hnz']; subst.
    set (y := x - e).
    pose (r1 := recharge r0 y).
    pose (r2 := reservoir_step (dt b) r0 y).
    pose (b1 := with_reservoirs b (r1 :: good ++ z :: tail)).
    pose (b2 := with_reservoirs b (r2 :: good ++ z :: tail)).
    assert (call_recharge 0 y b = (Ok tt, b1)) as E1.
    { rewrite (call_recharge_at b 0 r0) by now rewrite Hrs.
      unfold b1. now rewrite Hrs. }
    assert (call_discharge 0 b1 = (Ok tt, b2)) as E2.
    { rewrite (call_discharge_at b1 0 r1); [| reflexivity |].
      - unfold b2, r2, reservoir_step. fold r1. cbn.
        do 5 f_equal. apply (recharge_fixed r0 y).
      - unfold r1. now rewrite (proj1 (proj2 (recharge_fixed r0 y))). }
    assert (read_exfiltrated 0 b2 = (Ok (exfiltratedThisStep r2), b2)) as E3.
    { now apply read_exfiltrated_at with r2. }
    unfold update. fold y.
    unfold bind at 1. rewrite E1.
    unfold bind at 1. rewrite E2.
    unfold bind at 1. rewrite E3.
    unfold bind, get. cbn [reservoirs b2 with_reservoirs length].
    rewrite Nat.sub_succ, Nat.sub_0_r.
    rewrite (update_loop_stops good [] r2 _ b2 (infiltratedThisStep r2) z tail);
      [reflexivity|reflexivity|reflexivity|assumption|assumption].
Qed.

Lemma update_stops_at_zero_efold_witness :
  update 10 0 blocked_buckets
  = (Raise ZeroDivisionError,
     with_reservoirs blocked_buckets
       (cascade_sequence 1 (10 - 0) [reservoir_init 5 0.5 Unbounded]
        ++ recharge (reservoir_init 0 1 Unbounded)
             (cascade_outflow 1 (10 - 0) [reservoir_init 5 0.5 Unbounded])
           :: [reservoir_init 30 1 Unbounded])).
Proof.
  apply (update_stops_at_zero_efold blocked_buckets 10 0
           [reservoir_init 5 0.5 Unbounded] (reservoir_init 0 1 Unbounded)
           [reservoir_init 30 1 Unbounded]).
  - reflexivity.
  - repeat constructor. simpl. lra.
  - reflexivity.
Defined.

End CascadeLaws.

(** * Laws of [run] *)

Section RunLaws.

Implicit Types (b : buckets) (rs : list reservoir) (r : reservoir).

Lemma subscript_ET_middle epre e es :
  subscript_ET (Some (Array (epre ++ e :: es))) (length epre) = Ok e.
Proof. unfold subscript_ET. now rewrite list_lookup_middle. Qed.

Lemma subscript_ET_end epre :
  subscript_ET (Some (Array epre)) (length epre) = Raise IndexError.
Proof. unfold subscript_ET. now rewrite lookup_ge_None_2. Qed.

Lemma run_loop_ET_simulates xs :
  forall es pre epre b q,
    length epre = length pre ->
    ET b = Some (Array (epre ++ es)) ->
    Q b = Some q ->
    reservoirs b <> [] ->
    Forall (fun r => t_efold r <> 0) (reservoirs b) ->
    run_loop_ET (Some (pre ++ xs)) (seq (length pre) (length xs)) b
    = (if (length xs <=? length es)%nat then Ok tt else Raise IndexError,
       with_Q
         (with_reservoirs b
            (fst (simulate_ET (dt b) (reservoirs b) xs es)))
         (Some (q ++ snd (simulate_ET (dt b) (reservoirs b) xs es)))).
Proof.
  induction xs as [|x xs IH]; intros es pre epre b q Hlen HET Hq Hne Hnz.
  - simpl. unfold ret. rewrite app_nil_r, <- Hq. now destruct b.
  - cbn [length seq run_loop_ET].
    unfold bind at 1. unfold lift at 1. rewrite subscript_middle.
    unfold bind at 1. unfold get at 1.
    unfold bind at 1. unfold lift at 1. rewrite HET, <- Hlen.
    destruct es as [|e es].
    + rewrite app_nil_r, subscript_ET_end. cbn [Nat.leb simulate_ET fst snd].
      rewrite app_nil_r, <- Hq. now destruct b.
    + rewrite subscript_ET_middle.
      unfold bind at 1. rewrite update_runs_sequence by assumption.
      set (rs' := cascade_sequence (dt b) (x - e) (reservoirs b)).
      unfold bind at 1. unfold append_Q, bind, get, lift, modify.
      cbn [Q with_reservoirs]. rewrite Hq. cbn [getattr].
      replace (pre ++ x :: xs) with ((pre ++ [x]) ++ xs)
        by now rewrite <- app_assoc.
      replace (S (length epre)) with (length (pre ++ [x]))
        by (rewrite length_app, Hlen; simpl; lia).
      rewrite (IH es _ (epre ++ [e]) _ (q ++ [total_exfiltrated rs']));
        cbn [reservoirs dt Q ET with_Q with_reservoirs].
      * cbn [simulate_ET length Nat.leb]. fold rs'.
        destruct (simulate_ET (dt b) rs' xs es) as [rsf qs].
        cbn [fst snd]. now rewrite <- app_assoc.
      * rewrite !length_app. simpl. lia.
      * now rewrite <- app_assoc.
      * reflexivity.
      * now apply cascade_sequence_nonempty.
      * now apply cascade_sequence_nonzero.
Qed.

Lemma simulate_ET_length dt rs xs :
  forall es,
    length (snd (simulate_ET dt rs xs es)) = Nat.min (length xs) (length es).
Proof.
  revert rs. induction xs as [|x xs IH]; intros rs es; [reflexivity|].
  destruct es as [|e es]; [reflexivity|]. simpl.
  specialize (IH (cascade_sequence dt (x - e) rs) es).
  destruct (simulate_ET _ _ xs es). simpl in *. now rewrite IH.
Qed.

(** The state in which [run(rain, ET=True)] ends, with an
    evapotranspiration series in place. *)
Lemma run_ET_state b rn et :
  ET b = Some (Array et) ->
  reservoirs b <> [] ->
  Forall (fun r => 0 < t_efold r) (reservoirs b) ->
  run (Some rn) true b
  = (if (length rn <=? length et)%nat then Ok tt else Raise IndexError,
     {| reservoirs := fst (simulate_ET (dt b) (reservoirs b) rn et);
        dt := dt b;
        rain := Some rn;
        ET := ET b;
        Q := Some (snd (simulate_ET (dt b) (reservoirs b) rn et));
        time := Some (time_axis (length rn) (dt b));
        stdout := stdout b ++ overwrite_warning (rain b) |}).
Proof.
  intros HET Hne Hpos. apply positive_nonzero in Hpos as Hnz.
  cbv [run bind modify get print ret set_rainfall_time_series].
  cbn [rain with_Q].
  destruct (rain b); cbn [rain with_Q with_rain with_stdout with_time];
    rewrite (run_loop_ET_simulates rn et [] [] _ []);
    try assumption; try reflexivity.
  cbn. now rewrite app_nil_r.
Qed.

(** X15.  With an evapotranspiration series at least as long as the
    rainfall passed, [run(rain, ET=True)] returns; the discharge series has
    one value per rainfall value, each the discharge of an update with net
    recharge [rain[i] - ET[i]]; values of the series beyond the rainfall
    are not read. *)
Theorem run_with_ET_series b rn et :
  ET b = Some (Array et) ->
  reservoirs b <> [] ->
  Forall (fun r => 0 < t_efold r) (reservoirs b) ->
  (length rn <= length et)%nat ->
  exists b' q,
    run (Some rn) true b = (Ok tt, b') /\
    Q b' = Some q /\
    q = snd (simulate_ET (dt b) (reservoirs b) rn et) /\
    length q = length rn /\
    reservoirs b' = fst (simulate_ET (dt b) (reservoirs b) rn et).
Proof.
  intros HET Hne Hpos Hlen. do 2 eexists.
  rewrite (run_ET_state b rn et) by assumption.
  rewrite (proj2 (Nat.leb_le _ _) Hlen). split; [reflexivity|].
  cbn. repeat split. rewrite simulate_ET_length. lia.
Qed.

Lemma run_with_ET_series_witness :
  exists b' q,
    run (Some [10; 0]) true ET_buckets = (Ok tt, b') /\
    Q b' = Some q /\
    q = snd (simulate_ET 1 (reservoirs ET_buckets) [10; 0] [1; 0.5; 0.25]) /\
    length q = 2%nat /\
    reservoirs b'
    = fst (simulate_ET 1 (reservoirs ET_buckets) [10; 0] [1; 0.5; 0.25]).
Proof.
  apply (run_with_ET_series ET_buckets [10; 0] [1; 0.5; 0.25]).
  - reflexivity.
  - discriminate.
  - repeat constructor; simpl; lra.
  - simpl; lia.
Defined.

(** X16.  With an evapotranspiration series shorter than the rainfall,
    [run(rain, ET=True)] raises [IndexError] at the first step that has no
    evapotranspiration value; the steps before it have run: the reservoirs
    are where those steps left them and [Q] holds their discharges, one per
    evapotranspiration value. *)
Theorem run_short_ET_raises b rn et :
  ET b = Some (Array et) ->
  reservoirs b <> [] ->
  Forall (fun r => 0 < t_efold r) (reservoirs b) ->
  (length et < length rn)%nat ->
  exists b' q,
    run (Some rn) true b = (Raise IndexError, b') /\
    Q b' = Some q /\
    length q = length et /\
    q = snd (simulate_ET (dt b) (reservoirs b) (take (length et) rn) et) /\
    reservoirs b'
    = fst (simulate_ET (dt b) (reservoirs b) (take (length et) rn) et).
Proof.
  intros HET Hne Hpos Hlen. do 2 eexists.
  rewrite (run_ET_state b rn et) by assumption.
  assert ((length rn <=? length et)%nat = false) as ->
    by (apply Nat.leb_gt; lia).
  assert (forall dt rs xs es,
            simulate_ET dt rs (take (length es) xs) es
            = simulate_ET dt rs xs es) as Htake.
  { clear. intros dt rs xs. revert rs.
    induction xs as [|x xs IH]; intros rs es; [now destruct es|].
    destruct es as [|e es]; [reflexivity|]. simpl. now rewrite IH. }
  split; [reflexivity|]. cbn. rewrite Htake.
  repeat split. rewrite simulate_ET_length. lia.
Qed.

Lemma run_short_ET_raises_witness :
  exists b' q,
    run (Some [10; 0; 0; 0]) true ET_buckets = (Raise IndexError, b') /\
    Q b' = Some q /\
    length q = 3%nat /\
    q = snd (simulate_ET 1 (reservoirs ET_buckets) (take 3 [10; 0; 0; 0])
               [1; 0.5; 0.25]) /\
    reservoirs b'
    = fst (simulate_ET 1 (reservoirs ET_buckets) (take 3 [10; 0; 0; 0])
             [1; 0.5; 0.25]).
Proof.
  apply (run_short_ET_raises ET_buckets [10; 0; 0; 0] [1; 0.5; 0.25]).
  - reflexivity.
  - discriminate.
  - repeat constructor; simpl; lra.
  - simpl; lia.
Defined.

(** X17.  Asked to use evapotranspiration when none was ever set,
    [run(rain, ET=True)] raises [TypeError] in the first step of a
    rainfall series that is not empty: no update runs, the reservoirs are
    as before and [Q] is the empty list. *)
Theorem run_ET_unset_raises b x xs :
  ET b = None ->
  exists b',
    run (Some (x :: xs)) true b = (Raise TypeError, b') /\
    Q b' = Some [] /\
    reservoirs b' = reservoirs b /\
    rain b' = Some (x :: xs).
Proof.
  intros HET.
  assert (forall b0 n, ET b0 = None ->
            run_loop_ET (Some (x :: xs)) (seq 0 (S n)) b0
            = (Raise TypeError, b0)) as Hloop.
  { intros b0 n E0. cbn [seq run_loop_ET]. cbv [bind lift get].
    cbn [subscript lookup list_lookup]. now rewrite E0. }
  cbv [run bind modify get print ret set_rainfall_time_series].
  cbn [rain with_Q].
  destruct (rain b); cbn [rain with_Q with_rain with_stdout with_time length];
    rewrite Hloop by exact HET; eexists; (split; [reflexivity|]);
    repeat split.
Qed.

Lemma run_ET_unset_raises_witness :
  exists b',
    run (Some [10; 0]) true sample_buckets = (Raise TypeError, b') /\
    Q b' = Some [] /\
    reservoirs b' = reservoirs sample_buckets /\
    rain b' = Some [10; 0].
Proof. apply (run_ET_unset_raises sample_buckets 10 [0]). reflexivity. Defined.

(** The state in which [run(rain)] ends when evapotranspiration is
    neglected. *)
Lemma run_direct_state b rn :
  reservoirs b <> [] ->
  Forall (fun r => 0 < t_efold r) (reservoirs b) ->
  run (Some rn) false b
  = (Ok tt,
     {| reservoirs := fst (simulate (dt b) (reservoirs b) rn);
        dt := dt b;
        rain := Some rn;
        ET := ET b;
        Q := Some (snd (simulate (dt b) (reservoirs b) rn));
        time := Some (time_axis (length rn) (dt b));
        stdout := (stdout b ++ overwrite_warning (rain b))
                  ++ ["Warning: neglecting evapotranspiration."%string] |}).
Proof.
  intros Hne Hpos. apply positive_nonzero in Hpos as Hnz.
  cbv [run bind modify get print ret set_rainfall_time_series].
  cbn [rain with_Q].
  destruct (rain b); cbn [rain with_Q with_rain with_stdout with_time];
    rewrite (run_loop_simulates_all rn _ []); try assumption; try reflexivity.
  cbn. now rewrite app_nil_r.
Qed.

Lemma time_axis_lookup n dt i :
  (i < n)%nat -> time_axis n dt !! i = Some (INR i * dt).
Proof.
  intros Hi. unfold time_axis.
  assert (forall k m j, (j < m)%nat ->
            map (fun i => INR i * dt) (seq k m) !! j
            = Some (INR (k + j) * dt)) as Hgen.
  { intros k m. revert k. induction m as [|m IH]; intros k j Hj; [lia|].
    destruct j as [|j]; simpl.
    - now rewrite Nat.add_0_r.
    - rewrite IH by lia. do 3 f_equal. lia. }
  now rewrite Hgen.
Qed.

(** X13.  What a completed [run(rain)] records besides the discharge: the
    series passed becomes the configured one, the time axis has one entry
    [i * dt] per step, the evapotranspiration attribute and the time step
    are untouched, and the output gains the overwrite warning exactly when
    a series was configured before, followed by the warning that
    evapotranspiration is neglected. *)
Theorem run_records b rn :
  reservoirs b <> [] ->
  Forall (fun r => 0 < t_efold r) (reservoirs b) ->
  exists b' tm,
    run (Some rn) false b = (Ok tt, b') /\
    rain b' = Some rn /\
    time b' = Some tm /\ length tm = length rn /\
    (forall i, (i < length rn)%nat -> tm !! i = Some (INR i * dt b)) /\
    ET b' = ET b /\ dt b' = dt b /\
    stdout b'
    = (stdout b ++ overwrite_warning (rain b))
      ++ ["Warning: neglecting evapotranspiration."%string].
Proof.
  intros Hne Hpos. do 2 eexists.
  rewrite run_direct_state by assumption. split; [reflexivity|].
  cbn. repeat split.
  - unfold time_axis. now rewrite length_map, length_seq.
  - intros i Hi. now apply time_axis_lookup.
Qed.

Lemma run_records_witness :
  exists b' tm,
    run (Some [10; 0; 0]) false configured_buckets = (Ok tt, b') /\
    rain b' = Some [10; 0; 0] /\
    time b' = Some tm /\ length tm = 3%nat /\
    (forall i, (i < 3)%nat -> tm !! i = Some (INR i * 1)) /\
    ET b' = None /\ dt b' = 1 /\
    stdout b'
    = ["Warning: overwriting existing rainfall time series."%string;
       "Warning: neglecting evapotranspiration."%string].
Proof.
  apply (run_records configured_buckets [10; 0; 0]).
  - discriminate.
  - repeat constructor; simpl; lra.
Defined.

(** X12.  With the series passed as the argument and evapotranspiration
    neglected, [run] returns on every cascade that has a reservoir: [Q]
    holds one discharge per rainfall value, in order, whatever it held
    before; the first is what [update(rain[0])] returns on the cascade as
    it was, and the reservoirs end where the updates leave them. *)
Theorem run_collects_discharges b rn :
  reservoirs b <> [] ->
  Forall (fun r => 0 < t_efold r) (reservoirs b) ->
  exists b' q,
    run (Some rn) false b = (Ok tt, b') /\
    Q b' = Some q /\
    length q = length rn /\
    q = snd (simulate (dt b) (reservoirs b) rn) /\
    reservoirs b' = fst (simulate (dt b) (reservoirs b) rn) /\
    (forall x xs, rn = x :: xs ->
       exists Qi b1 q', update x 0 b = (Ok Qi, b1) /\ q = Qi :: q').
Proof.
  intros Hne Hpos. do 2 eexists.
  split; [now apply run_direct_state|]. cbn.
  split; [reflexivity|]. split; [apply simulate_length|].
  split; [reflexivity|]. split; [reflexivity|].
  intros x xs ->. eexists _, _,
    (snd (simulate (dt b) (cascade_sequence (dt b) (x - 0) (reservoirs b)) xs)).
  split.
  - apply update_runs_sequence; [assumption|now apply positive_nonzero].
  - cbn [simulate].
    destruct (simulate (dt b) (cascade_sequence (dt b) (x - 0) (reservoirs b)) xs).
    reflexivity.
Qed.

Lemma run_collects_discharges_witness :
  exists b' q,
    run (Some [10; 0; 0]) false stale_buckets = (Ok tt, b') /\
    Q b' = Some q /\
    length q = 3%nat /\
    q = snd (simulate 1 (reservoirs stale_buckets) [10; 0; 0]) /\
    reservoirs b' = fst (simulate 1 (reservoirs stale_buckets) [10; 0; 0]) /\
    (forall x xs, [10; 0; 0] = x :: xs ->
       exists Qi b1 q', update x 0 stale_buckets = (Ok Qi, b1) /\ q = Qi :: q').
Proof.
  apply (run_collects_discharges stale_buckets [10; 0; 0]).
  - discriminate.
  - repeat constructor; simpl; lra.
Defined.

Lemma simulate_app dt xs ys :
  forall rs,
    simulate dt rs (xs ++ ys)
    = (fst (simulate dt (fst (simulate dt rs xs)) ys),
       snd (simulate dt rs xs)
       ++ snd (simulate dt (fst (simulate dt rs xs)) ys)).
Proof.
  induction xs as [|x xs IH]; intros rs.
  - simpl. now destruct (simulate dt rs ys).
  - cbn [app simulate]. rewrite IH.
    destruct (simulate dt (cascade_sequence dt (x - 0) rs) xs) as [r1 q1].
    reflexivity.
Qed.

Lemma cascade_sequence_positive dt input rs :
  Forall (fun r => 0 < t_efold r) rs ->
  Forall (fun r => 0 < t_efold r) (cascade_sequence dt input rs).
Proof.
  revert input. induction rs as [|r rs IH]; intros input Hpos; simpl;
    [constructor|].
  inversion Hpos; subst. constructor; [|now apply IH].
  unfold reservoir_step. simpl.
  now rewrite (proj1 (proj2 (recharge_fixed r input))).
Qed.

Lemma simulate_keeps_cascade dt xs :
  forall rs,
    rs <> [] -> Forall (fun r => 0 < t_efold r) rs ->
    fst (simulate dt rs xs) <> [] /\
    Forall (fun r => 0 < t_efold r) (fst (simulate dt rs xs)).
Proof.
  induction xs as [|x xs IH]; intros rs Hne Hpos; [easy|].
  cbn [simulate].
  destruct (IH (cascade_sequence dt (x - 0) rs)) as [H1 H2].
  - now apply cascade_sequence_nonempty.
  - now apply cascade_sequence_positive.
  - destruct (simulate dt (cascade_sequence dt (x - 0) rs) xs). easy.
Qed.

(** X14.  A run can be split and resumed: running the first part of a
    rainfall series and then, on the cascade as that run left it, the rest,
    ends with the reservoirs of a single run over the whole series; the
    second run replaces [Q] by its own discharges, and the two series one
    after the other are the discharges of the single run. *)
Theorem run_resumes b xs ys :
  reservoirs b <> [] ->
  Forall (fun r => 0 < t_efold r) (reservoirs b) ->
  exists b1 b2 b12 q1 q2,
    run (Some xs) false b = (Ok tt, b1) /\
    run (Some ys) false b1 = (Ok tt, b2) /\
    run (Some (xs ++ ys)) false b = (Ok tt, b12) /\
    Q b1 = Some q1 /\ Q b2 = Some q2 /\ Q b12 = Some (q1 ++ q2) /\
    length q2 = length ys /\
    reservoirs b12 = reservoirs b2.
Proof.
  intros Hne Hpos.
  destruct (simulate_keeps_cascade (dt b) xs _ Hne Hpos) as [Hne1 Hpos1].
  do 5 eexists.
  split; [now apply run_direct_state|].
  split; [now apply run_direct_state|].
  split; [now apply run_direct_state|].
  cbn. rewrite simulate_app. cbn.
  repeat split. apply simulate_length.
Qed.

Lemma run_resumes_witness :
  exists b1 b2 b12 q1 q2,
    run (Some [10; 0]) false sample_buckets = (Ok tt, b1) /\
    run (Some [3; 0]) false b1 = (Ok tt, b2) /\
    run (Some ([10; 0] ++ [3; 0])) false sample_buckets = (Ok tt, b12) /\
    Q b1 = Some q1 /\ Q b2 = Some q2 /\ Q b12 = Some (q1 ++ q2) /\
    length q2 = 2%nat /\
    reservoirs b12 = reservoirs b2.
Proof.
  apply (run_resumes sample_buckets [10; 0] [3; 0]).
  - discriminate.
  - repeat constructor; simpl; lra.
Defined.

(** X18.  With the argument left out and an empty series configured,
    [run] returns: there is no step, so the [None] argument is never
    subscripted; the reservoirs are as before and [Q] is the empty list. *)
Theorem run_configured_empty b useET :
  rain b = Some [] ->
  exists b',
    run None useET b = (Ok tt, b') /\
    Q b' = Some [] /\
    reservoirs b' = reservoirs b /\
    time b' = Some [].
Proof.
  intros Hrain.
  cbv [run bind modify get print ret set_rainfall_time_series].
  cbn [rain with_Q]. rewrite Hrain.
  destruct useET; eexists; (split; [reflexivity|]); repeat split.
Qed.

Lemma run_configured_empty_witness :
  exists b',
    run None false idle_buckets = (Ok tt, b') /\
    Q b' = Some [] /\
    reservoirs b' = reservoirs idle_buckets /\
    time b' = Some [].
Proof. apply (run_configured_empty idle_buckets false). reflexivity. Defined.

End RunLaws.

(** * Laws of the checkpoint: [export_Hlist] and [initialize] *)

Section CheckpointLaws.

Implicit Types (b : buckets) (rs : list reservoir) (r : reservoir).

Lemma insert_middle {A} (pre : list A) x y rest :
  <[length pre := y]> (pre ++ x :: rest) = pre ++ y :: rest.
Proof. induction pre; [reflexivity|]. simpl. now f_equal. Qed.

Lemma with_reservoirs_same b : with_reservoirs b (reservoirs b) = b.
Proof. now destruct b. Qed.

(** The loop of [initialize] over the reservoirs [rs] that follow [pre],
    with the levels [hs] that follow [hpre]: levels are assigned pairwise
    until either list ends; a reservoir without a level raises. *)
Lemma initialize_loop_assigns rs :
  forall hs pre hpre b,
    reservoirs b = pre ++ rs ->
    length hpre = length pre ->
    initialize_loop (hpre ++ hs) (seq (length pre) (length rs)) b
    = (if (length rs <=? length hs)%nat then Ok tt else Raise IndexError,
       with_reservoirs b
         (pre ++ zip_with set_Hwater rs hs ++ drop (length hs) rs)).
Proof.
  induction rs as [|r rs IH]; intros hs pre hpre b Hrs Hlen.
  - simpl. unfold ret. rewrite drop_nil.
    rewrite <- Hrs. now rewrite with_reservoirs_same.
  - cbn [length seq initialize_loop].
    unfold bind at 1.
    rewrite (get_reservoir_at b (length pre) r)
      by (rewrite Hrs; now apply list_lookup_middle).
    unfold bind at 1. unfold lift at 1. rewrite <- Hlen.
    destruct hs as [|h hs].
    + rewrite app_nil_r. unfold subscript.
      rewrite lookup_ge_None_2 by lia.
      cbn [Nat.leb zip_with length drop app]. rewrite <- Hrs.
      now rewrite with_reservoirs_same.
    + unfold subscript. rewrite list_lookup_middle by reflexivity.
      unfold bind at 1. unfold set_reservoir, modify.
      rewrite Hrs, Hlen, insert_middle.
      replace (hpre ++ h :: hs) with ((hpre ++ [h]) ++ hs)
        by now rewrite <- app_assoc.
      replace (S (length pre)) with (length (pre ++ [set_Hwater r h]))
        by (rewrite length_app; simpl; lia).
      rewrite (IH hs (pre ++ [set_Hwater r h]) (hpre ++ [h])).
      * cbn [length Nat.leb zip_with drop with_reservoirs reservoirs].
        unfold with_reservoirs. cbn. now rewrite <- app_assoc.
      * cbn [reservoirs with_reservoirs]. now rewrite <- app_assoc.
      * rewrite !length_app. simpl. lia.
Qed.

(** The state in which [initialize(Hlist)] ends. *)
Lemma initialize_state b l :
  initialize (Some l) b
  = (if (length (reservoirs b) <=? length l)%nat then Ok tt
     else Raise IndexError,
     with_reservoirs b
       (zip_with set_Hwater (reservoirs b) l ++ drop (length l) (reservoirs b))).
Proof.
  unfold initialize, bind, get.
  exact (initialize_loop_assigns (reservoirs b) l [] [] b eq_refl eq_refl).
Qed.

Lemma zip_with_own_levels rs : zip_with set_Hwater rs (map Hwater rs) = rs.
Proof.
  induction rs as [|r rs IH]; [reflexivity|]. simpl. rewrite IH.
  f_equal. now destruct r.
Qed.

(** X19.  Checkpoint round trip: initialising a cascade with the levels it
    has just exported raises nothing and leaves the cascade exactly as it
    was, and exporting changes nothing either. *)
Theorem initialize_export_round_trip b :
  exists l,
    export_Hlist b = (Ok l, b) /\
    length l = length (reservoirs b) /\
    initialize (Some l) b = (Ok tt, b).
Proof.
  exists (map Hwater (reservoirs b)).
  split; [reflexivity|]. split; [apply length_map|].
  rewrite initialize_state, length_map, Nat.leb_refl.
  rewrite zip_with_own_levels, drop_all, app_nil_r.
  now rewrite with_reservoirs_same.
Qed.

Lemma zip_with_levels_fixed rs :
  forall l,
    (length rs <= length l)%nat ->
    map Hwater (zip_with set_Hwater rs l) = take (length rs) l /\
    map Hmax (zip_with set_Hwater rs l) = map Hmax rs /\
    map t_efold (zip_with set_Hwater rs l) = map t_efold rs /\
    map f_to_discharge (zip_with set_Hwater rs l) = map f_to_discharge rs /\
    map excess (zip_with set_Hwater rs l) = map excess rs.
Proof.
  induction rs as [|r rs IH]; intros l Hlen; [now repeat split|].
  destruct l as [|h l]; [simpl in Hlen; lia|].
  destruct (IH l) as (H1 & H2 & H3 & H4 & H5); [simpl in Hlen; lia|].
  simpl. rewrite H1, H2, H3, H4, H5. now repeat split.
Qed.

(** X20.  With at least one level per reservoir, [initialize] returns and
    sets the levels in reservoir order, so that [export_Hlist] then returns
    the levels given (those beyond the last reservoir are ignored).
    Capacities, e-folding times, discharge fractions and the pending
    excess, which the checkpoint does not hold, stay as they were. *)
Theorem initialize_sets_levels b l :
  (length (reservoirs b) <= length l)%nat ->
  exists b',
    initialize (Some l) b = (Ok tt, b') /\
    export_Hlist b' = (Ok (take (length (reservoirs b)) l), b') /\
    map Hmax (reservoirs b') = map Hmax (reservoirs b) /\
    map t_efold (reservoirs b') = map t_efold (reservoirs b) /\
    map f_to_discharge (reservoirs b') = map f_to_discharge (reservoirs b) /\
    map excess (reservoirs b') = map excess (reservoirs b).
Proof.
  intros Hlen. eexists. rewrite initialize_state.
  rewrite (proj2 (Nat.leb_le _ _) Hlen). split; [reflexivity|].
  rewrite drop_ge by assumption. rewrite app_nil_r.
  destruct (zip_with_levels_fixed (reservoirs b) l Hlen)
    as (H1 & H2 & H3 & H4 & H5).
  unfold export_Hlist, bind, get, ret. cbn [reservoirs with_reservoirs].
  rewrite H1. now repeat split.
Qed.

Lemma initialize_sets_levels_witness :
  exists b',
    initialize (Some [4; 6; 9]) sample_buckets = (Ok tt, b') /\
    export_Hlist b' = (Ok (take 2 [4; 6; 9]), b') /\
    map Hmax (reservoirs b') = map Hmax (reservoirs sample_buckets) /\
    map t_efold (reservoirs b') = map t_efold (reservoirs sample_buckets) /\
    map f_to_discharge (reservoirs b')
    = map f_to_discharge (reservoirs sample_buckets) /\
    map excess (reservoirs b') = map excess (reservoirs sample_buckets).
Proof.
  apply (initialize_sets_levels sample_buckets [4; 6; 9]). simpl. lia.
Defined.

(** X21.  With fewer levels than reservoirs, [initialize] raises
    [IndexError] after it has assigned every level it was given: the first
    reservoirs have the new levels, the others their old ones. *)
Theorem initialize_short_list_raises b l :
  (length l < length (reservoirs b))%nat ->
  exists b',
    initialize (Some l) b = (Raise IndexError, b') /\
    map Hwater (reservoirs b')
    = l ++ drop (length l) (map Hwater (reservoirs b)) /\
    length (reservoirs b') = length (reservoirs b).
Proof.
  intros Hlen. eexists. rewrite initialize_state.
  assert ((length (reservoirs b) <=? length l)%nat = false) as ->
    by (apply Nat.leb_gt; lia).
  split; [reflexivity|]. cbn [reservoirs with_reservoirs].
  assert (forall rs hs, (length hs <= length rs)%nat ->
            map Hwater (zip_with set_Hwater rs hs) = hs) as Hz.
  { clear. induction rs as [|r rs IH]; intros [|h hs] Hl;
      simpl in *; try reflexivity; try lia.
    rewrite IH by lia. reflexivity. }
  split.
  - rewrite map_app, Hz by lia. f_equal.
    generalize (length l). clear. intros n.
    revert n. induction (reservoirs b) as [|r rs IH]; intros [|n];
      simpl; try reflexivity. apply IH.
  - rewrite length_app, length_zip_with, length_drop. lia.
Qed.

Lemma initialize_short_list_raises_witness :
  exists b',
    initialize (Some [4]) sample_buckets = (Raise IndexError, b') /\
    map Hwater (reservoirs b')
    = [4] ++ drop 1 (map Hwater (reservoirs sample_buckets)) /\
    length (reservoirs b') = length (reservoirs sample_buckets).
Proof.
  apply (initialize_short_list_raises sample_buckets [4]). simpl. lia.
Defined.

Lemma recharge_same_state r r' H :
  same_state r r' -> same_state (recharge r H) (recharge r' H).
Proof.
  intros (Hw & Hm & Ht & He & Hf). unfold recharge.
  rewrite <- Hw, <- Hm, <- He.
  destruct (Rlt_dec (Hwater r) 0); [now repeat split|].
  destruct (le_cap _ _); [now repeat split|].
  destruct (gt_cap _ _); [|now repeat split].
  destruct (Hmax r) eqn:E; repeat split; simpl; congruence.
Qed.

Lemma reservoir_step_same_state dt r r' input :
  same_state r r' -> reservoir_step dt r input = reservoir_step dt r' input.
Proof.
  intros Hs. destruct (recharge_same_state r r' input Hs)
    as (Hw & Hm & Ht & He & Hf).
  destruct Hs as (_ & _ & Ht0 & _ & _).
  unfold reservoir_step, discharge_with. now rewrite Hw, Hm, Ht, He, Hf, Ht0.
Qed.

Lemma cascade_sequence_same_state dt rs rs' :
  Forall2 same_state rs rs' ->
  forall input, cascade_sequence dt input rs = cascade_sequence dt input rs'.
Proof.
  induction 1 as [|r r' rs rs' Hr _ IH]; intros input; [reflexivity|].
  simpl. rewrite (reservoir_step_same_state dt r r' input Hr). now rewrite IH.
Qed.

Lemma rebuilt_with_levels rs :
  Forall (fun r => excess r = 0) rs ->
  Forall2 same_state (zip_with set_Hwater (map rebuilt rs) (map Hwater rs)) rs.
Proof.
  induction 1 as [|r rs Hr _ IH]; simpl; constructor; [|assumption].
  repeat split; simpl. now symmetry.
Qed.

(** X22.  The exported levels are a complete checkpoint of a cascade in
    which nothing is pending (as after any update): a cascade built anew
    with the same parameters and time step and initialised with those
    levels returns from the next [update] the same discharge and has the
    same reservoirs afterwards as the original. *)
Theorem checkpoint_restarts_cascade b c x e :
  reservoirs b <> [] ->
  Forall (fun r => 0 < t_efold r) (reservoirs b) ->
  Forall (fun r => excess r = 0) (reservoirs b) ->
  dt c = dt b ->
  reservoirs c = map rebuilt (reservoirs b) ->
  exists l c1 Qi b' c',
    export_Hlist b = (Ok l, b) /\
    initialize (Some l) c = (Ok tt, c1) /\
    update x e b = (Ok Qi, b') /\
    update x e c1 = (Ok Qi, c') /\
    reservoirs c' = reservoirs b'.
Proof.
  intros Hne Hpos Hex Hdt Hc.
  pose proof (rebuilt_with_levels _ Hex) as Hsame.
  assert (cascade_sequence (dt b) (x - e)
            (zip_with set_Hwater (map rebuilt (reservoirs b))
               (map Hwater (reservoirs b)))
          = cascade_sequence (dt b) (x - e) (reservoirs b)) as Hseq
    by now apply cascade_sequence_same_state.
  exists (map Hwater (reservoirs b)). do 4 eexists.
  split; [reflexivity|].
  split.
  { rewrite initialize_state, Hc, !length_map, Nat.leb_refl.
    rewrite drop_ge by (rewrite !length_map; lia). now rewrite app_nil_r. }
  split.
  { apply update_runs_sequence; [assumption|now apply positive_nonzero]. }
  assert (Forall (fun r => t_efold r <> 0)
            (zip_with set_Hwater (map rebuilt (reservoirs b))
               (map Hwater (reservoirs b)))) as Hnz.
  { apply positive_nonzero in Hpos. clear -Hpos.
    induction Hpos; simpl; constructor; assumption. }
  split.
  - rewrite update_runs_sequence; cbn [reservoirs with_reservoirs dt];
      [|destruct (reservoirs b); [easy|discriminate]|assumption].
    rewrite Hdt, Hseq. reflexivity.
  - reflexivity.
Qed.

Lemma checkpoint_restarts_cascade_witness :
  exists l c1 Qi b' c',
    export_Hlist sealed_buckets = (Ok l, sealed_buckets) /\
    initialize (Some l)
      (buckets_init (map rebuilt (reservoirs sealed_buckets)) 1)
    = (Ok tt, c1) /\
    update 10 2 sealed_buckets = (Ok Qi, b') /\
    update 10 2 c1 = (Ok Qi, c') /\
    reservoirs c' = reservoirs b'.
Proof.
  apply (checkpoint_restarts_cascade sealed_buckets
           (buckets_init (map rebuilt (reservoirs sealed_buckets)) 1) 10 2).
  - discriminate.
  - repeat constructor; simpl; lra.
  - repeat constructor.
  - reflexivity.
  - reflexivity.
Defined.

End CheckpointLaws.

(** * Laws of the evapotranspiration formula *)

Section EvapotranspirationLaws.

Implicit Types (b : buckets) (Tmax Tmin photoperiod : R).

(** X23.  From an effective temperature of zero upwards,
    [evapotranspirationChang2019] returns and stores one number in
    [self.ET], changing nothing else: 0 at [Teff = 0], the power law
    [16*C*(10*Teff/Chang_I)**Chang_a_i] for [0 < Teff < 26] and the
    polynomial [C*(-415.85 + 32.24*Teff - 0.43*Teff**2)] from 26 upwards,
    where [C = photoperiod/360]. *)
Theorem evapotranspirationChang2019_stores b Tmax Tmin photoperiod :
  0 <= Teff_of Tmax Tmin ->
  let Teff := Teff_of Tmax Tmin in
  let C := photoperiod / 360 in
  exists v,
    evapotranspirationChang2019 Tmax Tmin photoperiod b
    = (Ok tt, with_ET b (Some (Scalar v))) /\
    (Teff = 0 -> v = 0) /\
    (0 < Teff < 26 -> v = 16 * C * Rpower (10 * Teff / Chang_I) Chang_a_i) /\
    (Teff >= 26 -> v = C * (-415.85 + 32.24 * Teff - 0.43 * Teff ^ 2)).
Proof.
  intros Hpos Teff C.
  destruct (Chang2019_regimes Tmax Tmin photoperiod) as (H0 & Hmid & Hhigh).
  fold Teff C in H0, Hmid, Hhigh.
  assert (exists v, Chang2019 Tmax Tmin photoperiod = Ok v) as [v Hv].
  { destruct (Req_dec_T Teff 0) as [E|E]; [eexists; now apply H0|].
    destruct (Rlt_dec Teff 26) as [L|L].
    - eexists. apply Hmid. fold Teff in Hpos. lra.
    - eexists. apply Hhigh. lra. }
  exists v. split.
  - unfold evapotranspirationChang2019, bind, lift, modify. now rewrite Hv.
  - repeat split; intros Hc;
      [apply H0 in Hc|apply Hmid in Hc|apply Hhigh in Hc]; congruence.
Qed.

Lemma evapotranspirationChang2019_stores_witness :
  exists v,
    evapotranspirationChang2019 30 10 12 sample_buckets
    = (Ok tt, with_ET sample_buckets (Some (Scalar v))) /\
    (Teff_of 30 10 >= 26 ->
     v = 12 / 360
         * (-415.85 + 32.24 * Teff_of 30 10 - 0.43 * Teff_of 30 10 ^ 2)).
Proof.
  assert (0 <= Teff_of 30 10) as Hpos by (unfold Teff_of; lra).
  destruct (evapotranspirationChang2019_stores sample_buckets 30 10 12 Hpos)
    as (v & Hv & _ & _ & Hhigh).
  exists v. split; assumption.
Defined.

(** X24.  For every effective temperature below zero, that is whenever
    [3*Tmax < Tmin], [evapotranspirationChang2019] raises [ValueError] and
    leaves the cascade, [self.ET] included, as it was. *)
Theorem evapotranspirationChang2019_negative_raises b Tmax Tmin photoperiod :
  3 * Tmax < Tmin ->
  Teff_of Tmax Tmin < 0 /\
  evapotranspirationChang2019 Tmax Tmin photoperiod b = (Raise ValueError, b).
Proof.
  intros Hlt. assert (Teff_of Tmax Tmin < 0) as Hneg
    by (unfold Teff_of; lra).
  split; [exact Hneg|].
  unfold evapotranspirationChang2019, bind, lift.
  now rewrite Chang2019_below_zero.
Qed.

Lemma evapotranspirationChang2019_negative_raises_witness :
  evapotranspirationChang2019 (-2) 1 12 ET_buckets
  = (Raise ValueError, ET_buckets).
Proof.
  apply (evapotranspirationChang2019_negative_raises ET_buckets (-2) 1 12).
  lra.
Defined.

(** X25.  The sign of the formula: with a photoperiod that is not
    negative, the value is not negative for effective temperatures from 0
    to 58; from 59 upwards, with a positive photoperiod, the polynomial
    branch gives a negative evapotranspiration. *)
Theorem Chang2019_sign Tmax Tmin photoperiod :
  0 <= photoperiod ->
  (0 <= Teff_of Tmax Tmin <= 58 ->
   exists v, Chang2019 Tmax Tmin photoperiod = Ok v /\ 0 <= v) /\
  (59 <= Teff_of Tmax Tmin -> 0 < photoperiod ->
   exists v, Chang2019 Tmax Tmin photoperiod = Ok v /\ v < 0).
Proof.
  intros Hp.
  destruct (Chang2019_regimes Tmax Tmin photoperiod) as (H0 & Hmid & Hhigh).
  set (Teff := Teff_of Tmax Tmin) in *.
  assert (0 <= photoperiod / 360) as HC by (unfold Rdiv; lra).
  split.
  - intros [Hlo Hhi].
    destruct (Req_dec_T Teff 0) as [E|E].
    { exists 0. split; [now apply H0|lra]. }
    destruct (Rlt_dec Teff 26) as [L|L].
    + eexists. split; [apply Hmid; lra|].
      pose proof (exp_pos (Chang_a_i * ln (10 * Teff / Chang_I))) as He.
      unfold Rpower. apply Rmult_le_pos; [|lra].
      apply Rmult_le_pos; lra.
    + eexists. split; [apply Hhigh; lra|].
      apply Rmult_le_pos; [exact HC|]. nra.
  - intros Hhot Hday.
    eexists. split; [apply Hhigh; lra|].
    assert (0 < photoperiod / 360) as HCpos by (unfold Rdiv; lra).
    assert (-415.85 + 32.24 * Teff - 0.43 * Teff ^ 2 < 0) as Hneg by nra.
    nra.
Qed.

Lemma Chang2019_sign_witness :
  exists v, Chang2019 30 10 12 = Ok v /\ 0 <= v.
Proof.
  assert (0 <= 12) as Hp by lra.
  assert (0 <= Teff_of 30 10 <= 58) as Hr by (unfold Teff_of; lra).
  exact (proj1 (Chang2019_sign 30 10 12 Hp) Hr).
Defined.

End EvapotranspirationLaws.

(** * Laws of the Nash-Sutcliffe efficiency *)

Section EfficiencyLaws.

Implicit Types (Qsim : list R) (Qdata : list (option R)).

Lemma overflow_bound_large : 1024 <= overflow_bound.
Proof.
  unfold overflow_bound.
  replace (2 ^ 1024) with (2 ^ 970 * 2 ^ 54)
    by (rewrite <- pow_add; reflexivity).
  assert (2 ^ 10 <= 2 ^ 970) as H1 by (apply Rle_pow; [lra|lia]).
  assert (2 ^ 1 <= 2 ^ 54) as H2 by (apply Rle_pow; [lra|lia]).
  simpl in H1, H2. nra.
Qed.

Lemma product_finite_small q d :
  Rabs (q * d) < 1024 -> product_finite q (Some d) = true.
Proof.
  intros Hs. pose proof overflow_bound_large. simpl.
  destruct (Rlt_dec _ _); [reflexivity|lra].
Qed.

Lemma np_sum_nonneg (xs : list R) :
  Forall (fun x => 0 <= x) xs -> 0 <= np_sum xs.
Proof. induction 1; simpl; [lra|]. unfold np_sum in *. simpl. lra. Qed.

Lemma np_sum_zero (xs : list R) :
  Forall (fun x => 0 <= x) xs -> np_sum xs = 0 -> Forall (fun x => x = 0) xs.
Proof.
  induction 1 as [|x xs Hx Hxs IH]; intros Hs; [constructor|].
  pose proof (np_sum_nonneg xs Hxs). unfold np_sum in *. simpl in Hs.
  constructor; [lra|]. apply IH. lra.
Qed.

Lemma squares_nonneg {A} (f : A -> R) (l : list A) :
  Forall (fun x => 0 <= x) (map (fun a => f a ^ 2) l).
Proof. induction l; simpl; constructor; [nra|assumption]. Qed.

(** The masked arrays of the method are the two sides of the pairs. *)
Lemma selected_simulated Qsim :
  forall Qdata,
    length Qsim = length Qdata ->
    select Qsim (realvalue Qsim Qdata) = map fst (data_pairs Qsim Qdata).
Proof.
  induction Qsim as [|q Qsim IH]; intros [|[d|] Qdata] Hlen;
    simpl in Hlen; try reflexivity; try lia;
    cbn [realvalue zip_with select data_pairs];
    [destruct (product_finite q (Some d))|cbn [product_finite]];
    cbn [map fst select];
    fold (realvalue Qsim Qdata); rewrite IH by lia; reflexivity.
Qed.

Lemma selected_observed Qsim :
  forall Qdata,
    length Qsim = length Qdata ->
    values (select Qdata (realvalue Qsim Qdata))
    = map snd (data_pairs Qsim Qdata).
Proof.
  induction Qsim as [|q Qsim IH]; intros [|[d|] Qdata] Hlen;
    simpl in Hlen; try reflexivity; try lia;
    cbn [realvalue zip_with select data_pairs];
    [destruct (product_finite q (Some d))|cbn [product_finite]];
    cbn [map snd values select];
    fold (realvalue Qsim Qdata); rewrite IH by lia; reflexivity.
Qed.

Lemma zip_with_pairs (f : R -> R -> R) (ps : list (R * R)) :
  zip_with f (map fst ps) (map snd ps) = map (fun p => f (fst p) (snd p)) ps.
Proof. induction ps as [|[q d] ps IH]; simpl; [|rewrite IH]; reflexivity. Qed.

(** The value of the method in terms of the pairs. *)
Lemma efficiency_of_pairs Qsim Qdata :
  length Qsim = length Qdata ->
  let ps := data_pairs Qsim Qdata in
  let num := np_sum (map (fun p => (fst p - snd p) ^ 2) ps) in
  let den := np_sum (map (fun d => (d - np_mean (map snd ps)) ^ 2)
                       (map snd ps)) in
  computeNashSutcliffeEfficiency Qsim Qdata
  = Ok (if Req_dec_T den 0 then None else Some (1 - num / den),
        count_false (realvalue Qsim Qdata)).
Proof.
  intros Hlen ps num den. unfold computeNashSutcliffeEfficiency.
  destruct (Nat.eq_dec _ _) as [_|Hne]; [|contradiction].
  rewrite selected_simulated, selected_observed by assumption.
  now rewrite zip_with_pairs.
Qed.

(** X26.  The efficiency never exceeds 1: for arrays of one length, a
    finite value of [self.NSE] is at most 1. *)
Theorem efficiency_at_most_one Qsim Qdata v n :
  length Qsim = length Qdata ->
  computeNashSutcliffeEfficiency Qsim Qdata = Ok (Some v, n) ->
  v <= 1.
Proof.
  intros Hlen Hv. rewrite efficiency_of_pairs in Hv by assumption.
  cbv zeta in Hv.
  set (ps := data_pairs Qsim Qdata) in *.
  set (num := np_sum (map (fun p => (fst p - snd p) ^ 2) ps)) in *.
  set (den := np_sum (map (fun d => (d - np_mean (map snd ps)) ^ 2)
                        (map snd ps))) in *.
  destruct (Req_dec_T den 0) as [|Hden]; [discriminate|].
  injection Hv as Hv _.
  assert (0 <= num) as Hnum
    by apply np_sum_nonneg, (squares_nonneg (fun p => fst p - snd p)).
  assert (0 <= den) as Hd0 by apply np_sum_nonneg, squares_nonneg.
  assert (0 < / den) by (apply Rinv_0_lt_compat; lra).
  assert (0 <= num * / den) by (apply Rmult_le_pos; lra).
  unfold Rdiv in Hv. lra.
Qed.

Lemma sample_pairs :
  data_pairs simulated_sample observed_sample = [(1, 1); (4, 3)].
Proof.
  unfold simulated_sample, observed_sample. cbn [data_pairs].
  rewrite !product_finite_small; [reflexivity| |];
    rewrite Rabs_right; lra.
Qed.

Lemma efficiency_sample :
  computeNashSutcliffeEfficiency simulated_sample observed_sample
  = Ok (Some (1 / 2), 1%nat).
Proof.
  rewrite efficiency_of_pairs by reflexivity. cbv zeta.
  rewrite sample_pairs.
  unfold simulated_sample, observed_sample.
  cbn [realvalue zip_with count_false].
  rewrite !product_finite_small by (rewrite Rabs_right; lra).
  cbn [product_finite count_false].
  unfold np_mean, np_sum. cbn [fold_right map length INR fst snd].
  destruct (Req_dec_T _ 0) as [E|_].
  - exfalso. field_simplify in E. lra.
  - do 3 f_equal. field.
Qed.

Lemma efficiency_at_most_one_witness :
  exists v n,
    computeNashSutcliffeEfficiency simulated_sample observed_sample
    = Ok (Some v, n) /\ v <= 1.
Proof.
  exists (1 / 2), 1%nat. split; [exact efficiency_sample|].
  apply (efficiency_at_most_one simulated_sample observed_sample (1 / 2) 1%nat);
    [reflexivity|exact efficiency_sample].
Defined.

(** A spread of 0 in the denominator means that the observed values are
    all one number. *)
Lemma spread_zero_constant (ds : list R) :
  np_sum (map (fun d => (d - np_mean ds) ^ 2) ds) = 0 ->
  exists c, Forall (fun d => d = c) ds.
Proof.
  intros Hz. exists (np_mean ds).
  apply np_sum_zero in Hz; [|apply squares_nonneg].
  revert Hz. generalize (np_mean ds). intros m.
  induction ds as [|d ds IH]; intros Hz; [constructor|].
  inversion Hz as [|? ? Hd Hds]; subst.
  constructor; [nra|now apply IH].
Qed.

(** X28.  A perfect fit scores 1: for arrays of one length, when the
    observations that the mask keeps are not all one number and the
    simulated discharge equals the observed one at every position kept,
    [self.NSE] is 1. *)
Theorem efficiency_exact_fit_scores_one Qsim Qdata :
  length Qsim = length Qdata ->
  ~ (exists c, Forall (fun d => d = c) (map snd (data_pairs Qsim Qdata))) ->
  Forall (fun p => fst p = snd p) (data_pairs Qsim Qdata) ->
  exists n, computeNashSutcliffeEfficiency Qsim Qdata = Ok (Some 1, n).
Proof.
  intros Hlen Hspread Hfit.
  rewrite efficiency_of_pairs by assumption. cbv zeta.
  destruct (Req_dec_T _ 0) as [E|E].
  - exfalso. apply Hspread. now apply spread_zero_constant.
  - assert (np_sum (map (fun p => (fst p - snd p) ^ 2)
                      (data_pairs Qsim Qdata)) = 0) as ->.
    { clear -Hfit. induction Hfit as [|p ps Hp _ IH]; [reflexivity|].
      unfold np_sum in *. cbn [map fold_right]. rewrite IH, Hp. ring. }
    eexists. do 3 f_equal. unfold Rdiv. ring.
Qed.

Lemma efficiency_exact_fit_scores_one_witness :
  exists n,
    computeNashSutcliffeEfficiency [1; 7; 3] observed_sample = Ok (Some 1, n).
Proof.
  assert (data_pairs [1; 7; 3] observed_sample = [(1, 1); (3, 3)]) as Hp.
  { unfold observed_sample. cbn [data_pairs].
    rewrite !product_finite_small; [reflexivity| |];
      rewrite Rabs_right; lra. }
  apply (efficiency_exact_fit_scores_one [1; 7; 3] observed_sample).
  - reflexivity.
  - rewrite Hp. intros [c Hc]. simpl in Hc.
    inversion Hc as [|? ? H1 Hc']; subst.
    inversion Hc' as [|? ? H3 _]; subst. lra.
  - rewrite Hp. repeat constructor.
Defined.

Lemma masks_agree Qsim :
  forall Qsim' Qdata,
    length Qsim = length Qdata -> length Qsim' = length Qdata ->
    (forall i d, Qdata !! i = Some (Some d) -> Qsim !! i = Qsim' !! i) ->
    data_pairs Qsim Qdata = data_pairs Qsim' Qdata /\
    realvalue Qsim Qdata = realvalue Qsim' Qdata.
Proof.
  induction Qsim as [|q Qsim IH]; intros [|q' Qsim'] [|[d|] Qdata] H1 H2 Hag;
    simpl in H1, H2; try (split; reflexivity); try lia.
  - specialize (Hag 0%nat d eq_refl) as Hq. simpl in Hq. injection Hq as ->.
    destruct (IH Qsim' Qdata) as [IH1 IH2]; try lia.
    { intros i d'. apply (Hag (S i)). }
    cbn [data_pairs realvalue zip_with]. fold (realvalue Qsim Qdata).
    fold (realvalue Qsim' Qdata). now rewrite IH1, IH2.
  - destruct (IH Qsim' Qdata) as [IH1 IH2]; try lia.
    { intros i d'. apply (Hag (S i)). }
    cbn [data_pairs realvalue zip_with product_finite].
    fold (realvalue Qsim Qdata). fold (realvalue Qsim' Qdata).
    now rewrite IH1, IH2.
Qed.

Lemma count_false_masked Qsim :
  forall Qdata,
    count_false (realvalue Qsim Qdata)
    = length (filter (fun p => product_finite (fst p) (snd p) = false)
                (zip Qsim Qdata)).
Proof.
  induction Qsim as [|q Qsim IH]; intros [|d Qdata]; try reflexivity.
  cbn [realvalue zip zip_with count_false]. fold (realvalue Qsim Qdata).
  fold (zip Qsim Qdata).
  destruct (product_finite q d) eqn:E.
  - rewrite filter_cons_False by (simpl; congruence). apply IH.
  - rewrite filter_cons_True by exact E. cbn [length]. f_equal. apply IH.
Qed.

(** X29.  Positions without data do not count: two simulated series of
    the length of the observations that agree wherever the observation is
    finite get the same efficiency and the same number of no-data points,
    and that number is the number of positions where the observation is
    not finite or its product with the simulated value overflows. *)
Theorem efficiency_ignores_no_data Qsim Qsim' Qdata :
  length Qsim = length Qdata -> length Qsim' = length Qdata ->
  (forall i d, Qdata !! i = Some (Some d) -> Qsim !! i = Qsim' !! i) ->
  computeNashSutcliffeEfficiency Qsim Qdata
  = computeNashSutcliffeEfficiency Qsim' Qdata /\
  exists v,
    computeNashSutcliffeEfficiency Qsim Qdata
    = Ok (v, length (filter (fun p => product_finite (fst p) (snd p) = false)
                       (zip Qsim Qdata))).
Proof.
  intros H1 H2 Hag.
  rewrite !efficiency_of_pairs by assumption. cbv zeta.
  destruct (masks_agree Qsim Qsim' Qdata H1 H2 Hag) as [-> ->].
  rewrite <- (proj2 (masks_agree Qsim Qsim' Qdata H1 H2 Hag)).
  rewrite count_false_masked.
  split; [reflexivity|]. eexists. reflexivity.
Qed.

Lemma efficiency_ignores_no_data_witness :
  computeNashSutcliffeEfficiency [1; 7; 4] observed_sample
  = computeNashSutcliffeEfficiency [1; 0; 4] observed_sample.
Proof.
  apply (efficiency_ignores_no_data [1; 7; 4] [1; 0; 4] observed_sample);
    try reflexivity.
  intros [|[|[|i]]] d Hd; simpl in Hd; try discriminate; reflexivity.
Defined.

End EfficiencyLaws.
